(** * A shallow embedding of the Playwright/TypeScript UI framework

    The development follows the two TypeScript modules of the repository:

    - [pageFixture]: selector translation ([formSelector]), the wait
      engine ([waitForElementState]), element access ([getElement]) and the
      action wrappers built on them;
    - [visualTestingUtils]: screenshot capture, image comparison and the
      baseline pipeline ([runVisualTests]).

    Asynchronous functions are embedded in a small state-and-outcome monad
    over a [World] that holds what the source mutates (the module variable
    [formedSelector], the log, the file system) together with a clock and
    the list of calls made to the browser engine.  The browser engine
    (Playwright's [Page]) is external: it is a parameter that answers each
    call, given the calls made before, with a promise.

    Conventions of the model:
    - a JavaScript string is a [string], character for code unit; a number
      of milliseconds is an integer, and [number | undefined] is [option Z];
    - a promise of the engine settles after a number of milliseconds or
      never does; [Promise.race] is decided by the earlier settlement;
    - the logger keeps the first argument of each call as the line; an
      error passed as second argument, which the logging back end may
      append to that line, is not recorded;
    - the file system is a finite map from paths to contents, without
      directories; paths are joined as Node does on POSIX systems;
    - [page.screenshot({ path })] writes the picture to [path];
    - [pngjs] and [pixelmatch] are taken from the environment [Env];
    - calls run one after the other, as a single test awaits them. *)

From Stdlib Require Import ZArith QArith String Ascii List Lia.
From Stdlib.Strings Require Import Byte.
From stdpp Require Import base gmap strings list.
Import ListNotations.

Set Default Proof Using "Type".

(** ** JavaScript values and errors *)

(** A thrown JavaScript error: its [name] and its [message]. *)
Record JsError := MkError { err_name : string; err_message : string }.

(** [new Error(msg)] *)
Definition Error (msg : string) : JsError := MkError "Error" msg.

(** The error of a property access on [null]. *)
Definition TypeError (msg : string) : JsError := MkError "TypeError" msg.

(** [String(error)] *)
Definition String_of_error (e : JsError) : string :=
  err_name e +:+ ": " +:+ err_message e.

(** JSON-like values read back from the page. *)
Inductive JsVal :=
| JUndefined
| JNull
| JBool (b : bool)
| JNum (z : Z)
| JStr (s : string).

(** The double-quote character, as one-character string. *)
Definition dquote : string := String "034"%char EmptyString.

(** The decimal digit of the units of [n]. *)
Definition digitChar (n : N) : ascii := ascii_of_N (48 + n mod 10).

Fixpoint digitsOf (fuel : nat) (n : N) (acc : string) : string :=
  match fuel with
  | O => acc
  | S fuel' =>
      let acc' := String (digitChar n) acc in
      if (n / 10 =? 0)%N then acc' else digitsOf fuel' (n / 10)%N acc'
  end.

(** [String(n)] for an integer. *)
Definition String_of_N (n : N) : string := digitsOf (S (N.to_nat (N.log2 n))) n "".

Definition String_of_Z (z : Z) : string :=
  if (z <? 0)%Z then "-" +:+ String_of_N (Z.to_N (- z))
  else String_of_N (Z.to_N z).

(** ** Promises of the external engine *)

Inductive Settled (A : Type) :=
| Fulfilled (a : A)
| Rejected (e : JsError).
Arguments Fulfilled {A} a.
Arguments Rejected {A} e.

(** A promise handed out by the engine either never settles, or settles
    [after] milliseconds. *)
Inductive Promise (A : Type) :=
| Pending
| Settles (after : Z) (s : Settled A).
Arguments Pending {A}.
Arguments Settles {A} after s.

(** ** The browser engine *)

Definition Handle := nat.

(** The [state] option of [page.waitForSelector]. *)
Inductive SelectorState := StateHidden | StateVisible.

(** The calls the framework makes on the engine. *)
Inductive Call :=
| CWaitForSelector (query : string) (state : option SelectorState)
| CWaitForTimeout (ms : option Z)
| CQuery (query : string)                       (* page.$(query) *)
| CEvalChecked (selector : string)              (* page.$eval(selector, e => e.checked) *)
| CType (query text : string) (delay : Z)       (* page.type *)
| CFill (h : Handle) (text : string)
| CPress (h : Handle) (key : string)
| CTextContent (h : Handle)
| CClick (h : Handle) (modifiers : list string) (button : string)
| CGetProperty (h : Handle) (name : string)
| CJsonValue (property : Handle)
| CCheck (h : Handle)
| CUncheck (h : Handle)
| CSelectOption (h : Handle) (optionSelector : string)
| CIsVisible (h : Handle)
| CIsEnabled (h : Handle)
| CScreenshot (path : string).

(** What each call resolves to. [page.$] resolves to a handle or [null]. *)
Definition Resp (c : Call) : Type :=
  match c with
  | CQuery _ => option Handle
  | CEvalChecked _ => JsVal
  | CTextContent _ => option string
  | CGetProperty _ _ => Handle
  | CJsonValue _ => JsVal
  | CIsVisible _ => bool
  | CIsEnabled _ => bool
  | CScreenshot _ => list byte
  | _ => unit
  end.

(** The engine answers a call, given the calls made so far. *)
Definition Page := list Call -> forall c : Call, Promise (Resp c).

(** ** The world *)

Inductive LogLevel := Info | LError.

Record World := MkWorld {
  formedSelector : string;               (* let formedSelector: string = '' *)
  calls : list Call;                     (* engine calls so far, oldest first *)
  logs : list (LogLevel * string);       (* logger lines, oldest first *)
  clock : Z;                             (* milliseconds elapsed *)
  files : gmap string (list byte)        (* the file system, by path *)
}.

Definition set_formedSelector (q : string) (w : World) : World :=
  MkWorld q (calls w) (logs w) (clock w) (files w).
Definition add_call (c : Call) (w : World) : World :=
  MkWorld (formedSelector w) (calls w ++ [c]) (logs w) (clock w) (files w).
Definition add_log (l : LogLevel * string) (w : World) : World :=
  MkWorld (formedSelector w) (calls w) (logs w ++ [l]) (clock w) (files w).
Definition advance (dt : Z) (w : World) : World :=
  MkWorld (formedSelector w) (calls w) (logs w) (clock w + dt)%Z (files w).
Definition set_files (fs : gmap string (list byte)) (w : World) : World :=
  MkWorld (formedSelector w) (calls w) (logs w) (clock w) fs.

(** ** The monad of asynchronous functions *)

(** An awaited async function returns, throws, or never comes back. *)
Inductive Outcome (A : Type) :=
| Returned (a : A)
| Thrown (e : JsError)
| Never.
Arguments Returned {A} a.
Arguments Thrown {A} e.
Arguments Never {A}.

Definition M (A : Type) : Type := World -> World * Outcome A.

Definition ret {A} (a : A) : M A := fun w => (w, Returned a).
Definition throw {A} (e : JsError) : M A := fun w => (w, Thrown e).

Definition bind {A B} (m : M A) (k : A -> M B) : M B :=
  fun w =>
    match m w with
    | (w', Returned a) => k a w'
    | (w', Thrown e) => (w', Thrown e)
    | (w', Never) => (w', Never)
    end.

(** [try { m } catch (error) { h error }] *)
Definition try_catch {A} (m : M A) (h : JsError -> M A) : M A :=
  fun w =>
    match m w with
    | (w', Thrown e) => h e w'
    | r => r
    end.

Declare Scope async_scope.
Delimit Scope async_scope with async.
Notation "x <- c1 ;; c2" := (bind c1 (fun x => c2))
  (at level 100, c1 at next level, right associativity) : async_scope.
Notation "c1 ;; c2" := (bind c1 (fun _ => c2))
  (at level 100, right associativity) : async_scope.
Open Scope async_scope.

Definition get_formedSelector : M string := fun w => (w, Returned (formedSelector w)).
Definition put_formedSelector (q : string) : M unit :=
  fun w => (set_formedSelector q w, Returned tt).

(** [logger.info] and [logger.error]: the line is the first argument. *)
Definition logger_info (msg : string) : M unit := fun w => (add_log (Info, msg) w, Returned tt).
Definition logger_error (msg : string) : M unit := fun w => (add_log (LError, msg) w, Returned tt).

(** ** pageFixture *)

Section PageFixture.

Context (page : Page).

(** [await page.<call>]: the call is issued, and the caller resumes when
    the promise settles. *)
Definition await (c : Call) : M (Resp c) :=
  fun w =>
    let w' := add_call c w in
    match page (calls w) c with
    | Pending => (w', Never)
    | Settles dt (Fulfilled v) => (advance dt w', Returned v)
    | Settles dt (Rejected e) => (advance dt w', Thrown e)
    end.

(** [await Promise.race([page.<c1>, page.<c2>])]: both calls are issued,
    in this order; the promise that settles first decides, and on a tie the
    first of the array does. The value is discarded by the caller. *)
Definition await_race (c1 c2 : Call) : M unit :=
  fun w =>
    let p1 := page (calls w) c1 in
    let w1 := add_call c1 w in
    let p2 := page (calls w1) c2 in
    let w2 := add_call c2 w1 in
    let settle {X} (dt : Z) (s : Settled X) : World * Outcome unit :=
      match s with
      | Fulfilled _ => (advance dt w2, Returned tt)
      | Rejected e => (advance dt w2, Thrown e)
      end in
    match p1, p2 with
    | Pending, Pending => (w2, Never)
    | Settles t1 s1, Pending => settle t1 s1
    | Pending, Settles t2 s2 => settle t2 s2
    | Settles t1 s1, Settles t2 s2 =>
        if (t1 <=? t2)%Z then settle t1 s1 else settle t2 s2
    end.

(** [let defaultTimeout: 30000] declares the variable with the literal
    type [30000] and gives it no value: it is [undefined] when read. *)
Definition defaultTimeout : option Z := None.

Inductive ElementWaitState := PRESENT | VISIBLE | INVISIBLE.

Definition ElementWaitState_value (s : ElementWaitState) : Z :=
  match s with PRESENT => 1 | VISIBLE => 2 | INVISIBLE => 3 end.

(** [timeoutMs !== undefined && timeoutMs > 0 ? timeoutMs : defaultTimeout] *)
Definition chooseTimeout (timeoutMs : option Z) : option Z :=
  match timeoutMs with
  | Some t => if (0 <? t)%Z then Some t else defaultTimeout
  | None => defaultTimeout
  end.

(** [s.startsWith(prefix)] *)
Fixpoint startsWith (s prefix : string) {struct prefix} : bool :=
  match prefix with
  | EmptyString => true
  | String p prefix' =>
      match s with
      | EmptyString => false
      | String c s' => Ascii.eqb c p && startsWith s' prefix'
      end
  end.

(** [selector.slice(1)] *)
Definition slice1 (s : string) : string :=
  match s with
  | EmptyString => EmptyString
  | String _ rest => rest
  end.

(** [/^(\/\/|\()/.test(selector)] *)
Definition xpathPattern_test (selector : string) : bool :=
  startsWith selector "//" || startsWith selector "(".

Definition formSelector (selector : string) : M string :=
  if startsWith selector "#" then
    let dataTestId := slice1 selector in
    ret ("[data-testid=" +:+ dquote +:+ dataTestId +:+ dquote +:+ "]")
  else if xpathPattern_test selector then
    ret selector
  else
    throw (Error ("Invalid selector format: " +:+ selector)).

Definition waitForElementState (selector : string) (waitState : ElementWaitState)
    (timeoutMs : option Z) : M unit :=
  try_catch
    (q <- formSelector selector ;;
     put_formedSelector q ;;
     let timeout := chooseTimeout timeoutMs in
     sel <- get_formedSelector ;;
     let waitForSelectorCall :=
       match waitState with
       | PRESENT => CWaitForSelector sel None
       | INVISIBLE => CWaitForSelector sel (Some StateHidden)
       | VISIBLE => CWaitForSelector sel (Some StateVisible)
       end in
     await_race waitForSelectorCall (CWaitForTimeout timeout))
    (fun error =>
       logger_error ("Error occurred while waiting for element '" +:+ selector +:+
                     "' with state '" +:+ String_of_Z (ElementWaitState_value waitState) +:+ "':") ;;
       throw error).

(** [waitState ?? ElementWaitState.VISIBLE] *)
Definition orVisible (waitState : option ElementWaitState) : ElementWaitState :=
  match waitState with
  | Some s => s
  | None => VISIBLE
  end.

Definition getElement (selector : string) (waitState : option ElementWaitState)
    (timeoutMs : option Z) : M (option Handle) :=
  try_catch
    (let timeout := chooseTimeout timeoutMs in
     let elementWaitState := orVisible waitState in
     waitForElementState selector elementWaitState timeout ;;
     sel <- get_formedSelector ;;
     element <- await (CQuery sel) ;;
     sel' <- get_formedSelector ;;
     logger_info ("Element with selector '" +:+ sel' +:+ "' has been found.") ;;
     ret element)
    (fun error =>
       sel <- get_formedSelector ;;
       logger_error ("Error occurred while retrieving element '" +:+ sel +:+ "':") ;;
       throw error).

Definition notFound (selector : string) : JsError :=
  Error ("Element with selector '" +:+ selector +:+ "' not found.").

Definition clearText (selector : string) (waitState : option ElementWaitState)
    (timeoutMs : option Z) : M unit :=
  try_catch
    (element <- getElement selector waitState timeoutMs ;;
     match element with
     | Some h =>
         await (CFill h "") ;;
         logger_info ("Cleared text in element with selector '" +:+ selector +:+ "'.")
     | None => throw (notFound selector)
     end)
    (fun error =>
       logger_error ("Error occurred while clearing text in element with selector '" +:+
                     selector +:+ "':") ;;
       throw error).

(** [setText (selector, text, delay = 0, timeoutMs?)] *)
Definition setText (selector text : string) (delay : Z) (timeoutMs : option Z) : M unit :=
  try_catch
    (waitForElementState selector VISIBLE timeoutMs ;;
     clearText selector (Some VISIBLE) timeoutMs ;;
     sel <- get_formedSelector ;;
     await (CType sel text delay) ;;
     logger_info ("Typed the text on element with selector '" +:+ selector +:+ "'."))
    (fun error =>
       logger_error ("Error occurred while typing text: " +:+ String_of_error error)).

Definition keyPress (selector key : string) (waitState : option ElementWaitState)
    (timeoutMs : option Z) : M unit :=
  try_catch
    (element <- getElement selector waitState timeoutMs ;;
     match element with
     | Some h =>
         await (CPress h key) ;;
         logger_info ("Performed key operations in element with selector '" +:+ selector +:+ "'.")
     | None => throw (notFound selector)
     end)
    (fun error =>
       logger_error ("Error occurred while deleting a character: " +:+ String_of_error error) ;;
       throw error).

Definition getText (selector : string) (waitState : option ElementWaitState)
    (timeoutMs : option Z) : M (option string) :=
  try_catch
    (element <- getElement selector waitState timeoutMs ;;
     match element with
     | Some h =>
         textContent <- await (CTextContent h) ;;
         logger_info ("Successfully fetched the text content of the selector '" +:+
                      selector +:+ "'") ;;
         ret textContent
     | None => throw (notFound selector)
     end)
    (fun error =>
       logger_error ("Error occurred while retrieving text content of element with selector '" +:+
                     selector +:+ "':") ;;
       throw error).

(** [click (selector, modifiers = [], button = 'left', waitState?, timeoutMs?)] *)
Definition click (selector : string) (modifiers : list string) (button : string)
    (waitState : option ElementWaitState) (timeoutMs : option Z) : M unit :=
  try_catch
    (element <- getElement selector waitState timeoutMs ;;
     match element with
     | Some h =>
         await (CClick h modifiers button) ;;
         logger_info ("Clicked on element with selector '" +:+ selector +:+ "'.")
     | None => ret tt
     end)
    (fun error =>
       logger_error ("Error occurred while clicking on element '" +:+ selector +:+ "':") ;;
       throw error).

(** [element.getProperty] where [element] is [null]. *)
Definition nullPropertyRead (property : string) : JsError :=
  TypeError ("Cannot read properties of null (reading '" +:+ property +:+ "')").

Definition getPropertyValue (selector attributeName : string)
    (waitState : option ElementWaitState) (timeoutMs : option Z) : M JsVal :=
  try_catch
    (element <- getElement selector waitState timeoutMs ;;
     property <- match element with
                 | Some h => await (CGetProperty h attributeName)
                 | None => throw (nullPropertyRead "getProperty")
                 end ;;
     propertyValue <- await (CJsonValue property) ;;
     match propertyValue with
     | JNull =>
         throw (Error ("Unable to fetch the attriubte for the element with selector '" +:+
                       selector +:+ "'."))
     | _ =>
         logger_info ("Successfully fetched the attribute '" +:+ attributeName +:+
                      "' value for element with selector '" +:+ selector +:+ "'.") ;;
         ret propertyValue
     end)
    (fun error =>
       logger_error ("Error occurred while retrieving attribute '" +:+ attributeName +:+
                     "' value for element '" +:+ selector +:+ "':") ;;
       throw error).

Definition isElementChecked (selector : string) (timeoutMs : option Z) : M bool :=
  try_catch
    (element <- getElement selector (Some VISIBLE) timeoutMs ;;
     match element with
     | Some _ =>
         isChecked <- await (CEvalChecked selector) ;;
         match isChecked with
         | JBool true =>
             logger_info ("Element with selector '" +:+ selector +:+ "' is checked.") ;;
             ret true
         | _ =>
             logger_info ("Element with selector '" +:+ selector +:+ "' is not checked.") ;;
             ret false
         end
     | None => throw (Error ("Element with selector '" +:+ selector +:+ "' was not present."))
     end)
    (fun error =>
       logger_error ("Error occurred while checking check status of element with selector '" +:+
                     selector +:+ "':") ;;
       throw error).

Definition selectCheckbox (selector : string) (waitState : option ElementWaitState)
    (timeoutMs : option Z) : M unit :=
  try_catch
    (element <- getElement selector waitState timeoutMs ;;
     match element with
     | Some h =>
         await (CCheck h) ;;
         logger_info ("Checkbox with selector '" +:+ selector +:+ "' has been selected.")
     | None => ret tt
     end)
    (fun error =>
       logger_error ("Error occurred while selecting checkbox with selector '" +:+
                     selector +:+ "':")).

Definition unselectCheckbox (selector : string) (waitState : option ElementWaitState)
    (timeoutMs : option Z) : M unit :=
  try_catch
    (element <- getElement selector waitState timeoutMs ;;
     match element with
     | Some h =>
         await (CUncheck h) ;;
         logger_info ("Checkbox with selector '" +:+ selector +:+ "' has been unselected.")
     | None => ret tt
     end)
    (fun error =>
       logger_error ("Error occurred while unselecting checkbox with selector '" +:+
                     selector +:+ "':")).

Definition selectDropdownOption (selector opt : string)
    (waitState : option ElementWaitState) (timeoutMs : option Z) : M unit :=
  try_catch
    (element <- getElement selector waitState timeoutMs ;;
     match element with
     | Some h =>
         let optionSelector :=
           "option[value=" +:+ dquote +:+ opt +:+ dquote +:+ "], option[label=" +:+
           dquote +:+ opt +:+ dquote +:+ "]" in
         await (CSelectOption h optionSelector) ;;
         logger_info ("Selected option '" +:+ opt +:+ "' from dropdown with selector '" +:+
                      selector +:+ "'.")
     | None => ret tt
     end)
    (fun error =>
       logger_error ("Error occurred while selecting option '" +:+ opt +:+
                     "' from dropdown with selector '" +:+ selector +:+ "':")).

End PageFixture.

(** ** Node's [path.join] (POSIX flavour) *)

Definition slash : ascii := "/"%char.

(** The segments of a path between its separators. *)
Fixpoint split_slash (s : string) : list string :=
  match s with
  | EmptyString => [EmptyString]
  | String c rest =>
      if Ascii.eqb c slash then EmptyString :: split_slash rest
      else match split_slash rest with
           | seg :: segs => String c seg :: segs
           | [] => [String c EmptyString]
           end
  end.

Fixpoint join_slash (segs : list string) : string :=
  match segs with
  | [] => EmptyString
  | [seg] => seg
  | seg :: rest => seg +:+ "/" +:+ join_slash rest
  end.

(** One segment of [normalizeString]: empty and [.] segments vanish, [..]
    removes the segment before it (or stays, above the root of a relative
    path), any other segment is kept. The stack holds the kept segments,
    last one first. *)
Definition normalizeStep (allowAboveRoot : bool) (stack : list string) (seg : string)
    : list string :=
  if String.eqb seg "" || String.eqb seg "." then stack
  else if String.eqb seg ".." then
    match stack with
    | top :: below =>
        if String.eqb top ".." then (if allowAboveRoot then seg :: stack else stack)
        else below
    | [] => if allowAboveRoot then [seg] else []
    end
  else seg :: stack.

Definition normalizeString (path : string) (allowAboveRoot : bool) : string :=
  join_slash (rev (fold_left (normalizeStep allowAboveRoot) (split_slash path) [])).

(** [path.charCodeAt(path.length - 1) === 47] *)
Fixpoint endsWithSlash (s : string) : bool :=
  match s with
  | EmptyString => false
  | String c EmptyString => Ascii.eqb c slash
  | String _ rest => endsWithSlash rest
  end.

Definition path_normalize (path : string) : string :=
  if String.eqb path "" then "."
  else
    let isAbsolute := startsWith path "/" in
    let trailingSeparator := endsWithSlash path in
    let p := normalizeString path (negb isAbsolute) in
    if String.eqb p "" then
      (if isAbsolute then "/" else if trailingSeparator then "./" else ".")
    else
      let p' := if trailingSeparator then p +:+ "/" else p in
      if isAbsolute then "/" +:+ p' else p'.

(** The non-empty arguments, joined by the separator. *)
Fixpoint joined (args : list string) : option string :=
  match args with
  | [] => None
  | arg :: rest =>
      if String.eqb arg "" then joined rest
      else match joined rest with
           | None => Some arg
           | Some r => Some (arg +:+ "/" +:+ r)
           end
  end.

Definition path_join (args : list string) : string :=
  match joined args with
  | None => "."
  | Some j => path_normalize j
  end.

(** The last segment of a path, and the strings without a separator. *)
Definition basename (path : string) : string := List.last (split_slash path) EmptyString.

Fixpoint noSlash (s : string) : bool :=
  match s with
  | EmptyString => true
  | String c rest => negb (Ascii.eqb c slash) && noSlash rest
  end.

(** ** The date part of [new Date().toISOString()] *)

Record CivilDate := MkDate { year : N; month : N; day : N }.

Definition pad2 (n : N) : string :=
  String (digitChar (n / 10)) (String (digitChar n) EmptyString).

Definition pad4 (n : N) : string := pad2 (n / 100) +:+ pad2 n.

(** Years beyond 9999 are written with a sign and six digits. *)
Definition isoYear (y : N) : string :=
  if (y <? 10000)%N then pad4 y else "+" +:+ pad2 (y / 10000) +:+ pad4 y.

(** [date.toISOString().split('T')[0]] *)
Definition isoDate (d : CivilDate) : string :=
  isoYear (year d) +:+ "-" +:+ pad2 (month d) +:+ "-" +:+ pad2 (day d).

(** ** visualTestingUtils *)

(** A decoded PNG: [{ width, height, data }], four bytes a pixel. *)
Record Image := MkImage { width : Z; height : Z; data : list byte }.

(** [new PNG({ width, height })]: a zeroed buffer of [4 * width * height] bytes. *)
Definition newPNG (w h : Z) : Image :=
  MkImage w h (repeat x00 (Z.to_nat (4 * w * h))).

(** What the module takes from its environment: the directory of the
    module, the [pngjs] codec, the [pixelmatch] differ (which returns the
    number of differing pixels and the diff buffer it filled, or throws),
    the paths the process may write, and the calendar. *)
Record Env := MkEnv {
  dirname : string;
  png_read : list byte -> JsError + Image;
  png_write : Image -> list byte;
  pixelmatch : list byte -> list byte -> list byte -> Z -> Z -> Q -> JsError + (Z * list byte);
  writable : string -> bool;
  dateAt : Z -> CivilDate
}.

(** A synchronous call that may throw. *)
Definition lift_sync {A} (r : JsError + A) : M A :=
  match r with
  | inl e => throw e
  | inr a => ret a
  end.

Definition noEntry (path : string) : JsError :=
  Error ("ENOENT: no such file or directory, open '" +:+ path +:+ "'").
Definition noAccess (path : string) : JsError :=
  Error ("EACCES: permission denied, open '" +:+ path +:+ "'").

Section VisualTestingUtils.

Context (env : Env) (page : Page).

Definition fs_existsSync (path : string) : M bool :=
  fun w => (w, Returned (bool_decide (is_Some (files w !! path)))).

Definition fs_readFileSync (path : string) : M (list byte) :=
  fun w =>
    match files w !! path with
    | Some content => (w, Returned content)
    | None => (w, Thrown (noEntry path))
    end.

Definition fs_writeFileSync (path : string) (content : list byte) : M unit :=
  fun w =>
    if writable env path then (set_files (<[path := content]> (files w)) w, Returned tt)
    else (w, Thrown (noAccess path)).

Definition fs_copyFileSync (src dest : string) : M unit :=
  content <- fs_readFileSync src ;;
  fs_writeFileSync dest content.

(** [new Date().toISOString().split('T')[0]] *)
Definition currentDate_now : M string :=
  fun w => (w, Returned (isoDate (dateAt env (clock w)))).

Record Settings := MkSettings {
  reportPath : string;
  baselineDir : string;
  currentDir : string;
  diffDir : string;
  threshold : Q
}.

Definition settings : Settings := {|
  reportPath := path_join [dirname env; ".."; ".."; "reports"; "visual-tests"];
  baselineDir := "baseline";
  currentDir := "current";
  diffDir := "diff";
  threshold := (1 # 10)%Q
|}.

(** [page.screenshot({ path })]: the engine takes the picture and writes
    it to [path]. *)
Definition page_screenshot (path : string) : M unit :=
  buffer <- await page (CScreenshot path) ;;
  fun w => (set_files (<[path := buffer]> (files w)) w, Returned tt).

Definition captureScreenshot (filename : string) : M unit :=
  try_catch
    (let screenshotPath := path_join [reportPath settings; currentDir settings; filename] in
     page_screenshot screenshotPath ;;
     logger_info ("Successfully captured screenshot: " +:+ filename))
    (fun error =>
       logger_error ("Error while capturing screenshot: " +:+ String_of_error error) ;;
       throw error).

(** [createBaselineImage (page, testName, timeout = 2000)] *)
Definition createBaselineImage (testName : string) (timeout : Z) : M unit :=
  try_catch
    (currentDate <- currentDate_now ;;
     let baselineImage :=
       path_join [reportPath settings; baselineDir settings; testName +:+ "-baseline.png"] in
     let currentImage :=
       path_join [reportPath settings; currentDir settings;
                  testName +:+ "-current-" +:+ currentDate +:+ ".png"] in
     await page (CWaitForTimeout (Some timeout)) ;;
     captureScreenshot (testName +:+ "-current-" +:+ currentDate +:+ ".png") ;;
     logger_info ("No baseline image found for " +:+ testName +:+
                  ". Saving the current screenshot as baseline.") ;;
     fs_copyFileSync currentImage baselineImage)
    (fun error =>
       logger_error ("Error while creating baseline image: " +:+ String_of_error error)).

Definition compareScreenshots (image1 image2 diffImage : string) : M bool :=
  try_catch
    (buf1 <- fs_readFileSync image1 ;;
     img1 <- lift_sync (png_read env buf1) ;;
     buf2 <- fs_readFileSync image2 ;;
     img2 <- lift_sync (png_read env buf2) ;;
     let diff := newPNG (width img1) (height img1) in
     r <- lift_sync (pixelmatch env (data img1) (data img2) (data diff)
                                 (width img1) (height img1) (threshold settings)) ;;
     let numDiffPixels := fst r in
     let diff' := MkImage (width diff) (height diff) (snd r) in
     fs_writeFileSync diffImage (png_write env diff') ;;
     ret (numDiffPixels =? 0)%Z)
    (fun error =>
       logger_error ("Error while comparing screenshots: " +:+ String_of_error error) ;;
       ret false).

(** [runVisualTests (page, testName, timeout = 2000)] *)
Definition runVisualTests (testName : string) (timeout : Z) : M unit :=
  try_catch
    (currentDate <- currentDate_now ;;
     let baselineImage :=
       path_join [reportPath settings; baselineDir settings; testName +:+ "-baseline.png"] in
     let currentImage :=
       path_join [reportPath settings; currentDir settings;
                  testName +:+ "-current-" +:+ currentDate +:+ ".png"] in
     let diffImage :=
       path_join [reportPath settings; diffDir settings;
                  testName +:+ "-diff-" +:+ currentDate +:+ ".png"] in
     baselineExists <- fs_existsSync baselineImage ;;
     if negb baselineExists then
       createBaselineImage testName 2000
     else
       await page (CWaitForTimeout (Some timeout)) ;;
       captureScreenshot (testName +:+ "-current-" +:+ currentDate +:+ ".png") ;;
       isIdentical <- compareScreenshots baselineImage currentImage diffImage ;;
       if negb isIdentical then
         logger_error ("Visual difference detected for " +:+ testName +:+ ". Check " +:+
                       diffImage +:+ " for differences.")
       else ret tt)
    (fun error =>
       logger_error ("Error while running visual tests: " +:+ String_of_error error)).

End VisualTestingUtils.

(** ** Names used in the statements *)

(** An attribute-equality query: [[attribute="value"]]. *)
Definition attributeQuery (attribute value : string) : string :=
  "[" +:+ attribute +:+ "=" +:+ dquote +:+ value +:+ dquote +:+ "]".

(** The [state] option each wait state is translated to. *)
Definition selectorStateOf (waitState : ElementWaitState) : option SelectorState :=
  match waitState with
  | PRESENT => None
  | INVISIBLE => Some StateHidden
  | VISIBLE => Some StateVisible
  end.

(** The three paths of a test name on a given day. *)
Definition baselinePath (env : Env) (testName : string) : string :=
  path_join [reportPath (settings env); baselineDir (settings env);
             testName +:+ "-baseline.png"].
Definition currentPath (env : Env) (testName date : string) : string :=
  path_join [reportPath (settings env); currentDir (settings env);
             testName +:+ "-current-" +:+ date +:+ ".png"].
Definition diffPath (env : Env) (testName date : string) : string :=
  path_join [reportPath (settings env); diffDir (settings env);
             testName +:+ "-diff-" +:+ date +:+ ".png"].

(** The date string a run that starts in [w] works with. *)
Definition dateOf (env : Env) (w : World) : string := isoDate (dateAt env (clock w)).

(** What the handler of [compareScreenshots] makes of an error. *)
Definition comparison_failed (e : JsError) (w : World) : World * Outcome bool :=
  (add_log (LError, "Error while comparing screenshots: " +:+ String_of_error e) w,
   Returned false).

(** Running [m] from [w] changes no file outside [paths]. *)
Definition writes_only {A} (m : M A) (w : World) (paths : list string) : Prop :=
  forall p, p ∉ paths -> files (fst (m w)) !! p = files w !! p.

(** A segment is ordinary when normalisation keeps it. *)
Definition ordinary (seg : string) : Prop := seg <> "" /\ seg <> "." /\ seg <> "..".

(** ** Concrete engines and environments, for running the embedding *)

(** An engine for a page on which every query finds [found]: a selector
    wait is satisfied after 20 ms when there is an element and never
    otherwise, a timer runs for its duration (1 ms when the duration is
    [undefined]), and every other call succeeds after 1 ms. *)
Definition demoPage (found : option Handle) : Page :=
  fun _ c =>
    match c as c' return Promise (Resp c') with
    | CWaitForSelector _ _ =>
        match found with
        | Some _ => Settles 20 (Fulfilled tt)
        | None => Pending
        end
    | CWaitForTimeout ms =>
        Settles (match ms with Some t => Z.max t 0 | None => 1 end) (Fulfilled tt)
    | CQuery _ => Settles 1 (Fulfilled found)
    | CEvalChecked _ => Settles 1 (Fulfilled (JBool true))
    | CTextContent _ => Settles 1 (Fulfilled (Some "text"))
    | CGetProperty h _ => Settles 1 (Fulfilled h)
    | CJsonValue _ => Settles 1 (Fulfilled (JStr "value"))
    | CIsVisible _ => Settles 1 (Fulfilled true)
    | CIsEnabled _ => Settles 1 (Fulfilled true)
    | CScreenshot _ => Settles 5 (Fulfilled [x01; x01; xff; xff; xff; xff])
    | CType _ _ _ | CFill _ _ | CPress _ _ | CClick _ _ _ | CCheck _ | CUncheck _
    | CSelectOption _ _ => Settles 1 (Fulfilled tt)
    end.

(** The world before anything has run. *)
Definition world0 : World := MkWorld "" [] [] 0 ∅.

(** A toy image codec for the examples: one byte of width, one of height,
    then the pixel data, which must be four bytes a pixel. *)
Definition demo_png_read (buf : list byte) : JsError + Image :=
  match buf with
  | bw :: bh :: pixels =>
      let w := Z.of_N (Byte.to_N bw) in
      let h := Z.of_N (Byte.to_N bh) in
      if (Z.of_nat (length pixels) =? 4 * w * h)%Z then inr (MkImage w h pixels)
      else inl (Error "Invalid file signature")
  | _ => inl (Error "Invalid file signature")
  end.

Definition demo_png_write (img : Image) : list byte :=
  default x00 (Byte.of_N (Z.to_N (width img))) ::
  default x00 (Byte.of_N (Z.to_N (height img))) :: data img.

(** The pixels, four bytes each, in which two buffers differ. *)
Fixpoint countDiffPixels (a b : list byte) : Z :=
  match a, b with
  | a1 :: a2 :: a3 :: a4 :: a', b1 :: b2 :: b3 :: b4 :: b' =>
      (if Byte.eqb a1 b1 && Byte.eqb a2 b2 && Byte.eqb a3 b3 && Byte.eqb a4 b4 then 0 else 1)%Z +
      countDiffPixels a' b'
  | _, _ => 0%Z
  end.

(** A stand-in for the differ: it refuses buffers of unequal size, as
    [pixelmatch] does, and otherwise counts the pixels that are not equal
    and leaves the diff buffer as it is. *)
Definition demo_pixelmatch (img1 img2 output : list byte) (w h : Z) (_ : Q)
    : JsError + (Z * list byte) :=
  if negb (length img1 =? length img2)%nat || negb (length output =? length img1)%nat then
    inl (Error "Image sizes do not match.")
  else if negb (Z.of_nat (length img1) =? w * h * 4)%Z then
    inl (Error "Image data size does not match width/height.")
  else inr (countDiffPixels img1 img2, output).

Definition demoEnv : Env := {|
  dirname := "/repo/src/ui-automation-core/utilities";
  png_read := demo_png_read;
  png_write := demo_png_write;
  pixelmatch := demo_pixelmatch;
  writable := fun _ => true;
  dateAt := fun _ => MkDate 2024 5 17
|}.

(** One white pixel, and two pixels side by side, in the toy codec. *)
Definition onePixel : list byte := [x01; x01; xff; xff; xff; xff].
Definition twoPixels : list byte := [x02; x01; xff; xff; xff; xff; xff; xff; xff; xff].

(** A world with the two images on disk. *)
Definition world_images : World :=
  MkWorld "" [] [] 0 (<["/img/a.png" := onePixel]> (<["/img/b.png" := twoPixels]> ∅)).

(** A world in which the baseline of test [home] exists. *)
Definition world_baseline : World :=
  MkWorld "" [] [] 0 (<[baselinePath demoEnv "home" := onePixel]> ∅).

(** ** pageFixture: the state checks and the plain wait *)

Section PageFixtureChecks.

Context (page : Page).

Definition isElementPresent (selector : string) (timeoutMs : option Z) : M bool :=
  try_catch
    (element <- getElement page selector (Some PRESENT) timeoutMs ;;
     match element with
     | Some _ =>
         logger_info ("Element with selector '" +:+ selector +:+ "' is present:") ;;
         ret true
     | None =>
         logger_error ("Element with selector '" +:+ selector +:+ "' was not present.") ;;
         ret false
     end)
    (fun error =>
       logger_error ("Error occurred while checking presence of element with selector '" +:+
                     selector +:+ "':") ;;
       throw error).

Definition isElementVisible (selector : string) (timeoutMs : option Z) : M bool :=
  try_catch
    (element <- getElement page selector (Some VISIBLE) timeoutMs ;;
     match element with
     | Some h =>
         isElementVisible <- await page (CIsVisible h) ;;
         if isElementVisible then
           logger_info ("Element with selector '" +:+ selector +:+ "' is visible:") ;;
           ret isElementVisible
         else
           logger_error ("Element with selector '" +:+ selector +:+ "' was not visible.") ;;
           ret false
     | None => throw (Error ("Element with selector '" +:+ selector +:+ "' was not present."))
     end)
    (fun error =>
       logger_error ("Error occurred while checking visibility of element with selector '" +:+
                     selector +:+ "':") ;;
       throw error).

Definition isElementEnabled (selector : string) (timeoutMs : option Z) : M bool :=
  try_catch
    (element <- getElement page selector (Some VISIBLE) timeoutMs ;;
     match element with
     | Some h =>
         isEnabled <- await page (CIsEnabled h) ;;
         if isEnabled then
           logger_info ("Element with selector '" +:+ selector +:+ "' is enabled.") ;;
           ret true
         else
           logger_info ("Element with selector '" +:+ selector +:+ "' is disabled.") ;;
           ret false
     | None => throw (Error ("Element with selector '" +:+ selector +:+ "' was not present."))
     end)
    (fun error =>
       logger_error ("Error occurred while checking the enabled status of element with selector '" +:+
                     selector +:+ "':") ;;
       throw error).

(** [waitFor (ms)] *)
Definition waitFor (ms : Z) : M unit :=
  try_catch
    (await page (CWaitForTimeout (Some ms)) ;;
     logger_info ("Waited for " +:+ String_of_Z ms +:+ " milliseconds"))
    (fun error =>
       logger_error ("Error occurred while waiting for " +:+ String_of_Z ms +:+
                     " milliseconds:") ;;
       throw error).

End PageFixtureChecks.

(** ** More engines for running the embedding *)

(** The engine of [demoPage], on which the calls selected by [bad] are
    rejected after 3 ms, as on a page that was closed. *)
Definition pageClosed : JsError := Error "Target page, context or browser has been closed".

Definition faultyPage (found : option Handle) (bad : Call -> bool) : Page :=
  fun tr c => if bad c then Settles 3 (Rejected pageClosed) else demoPage found tr c.

(** The engine of [demoPage], on which reading a value from the page
    ([$eval], [jsonValue]) gives [v] and the boolean checks give [b]. *)
Definition valuePage (found : option Handle) (v : JsVal) (b : bool) : Page :=
  fun tr c =>
    match c as c' return Promise (Resp c') with
    | CEvalChecked _ => Settles 1 (Fulfilled v)
    | CJsonValue _ => Settles 1 (Fulfilled v)
    | CIsVisible _ => Settles 1 (Fulfilled b)
    | CIsEnabled _ => Settles 1 (Fulfilled b)
    | c' => demoPage found tr c'
    end.

(** An engine on which the element shows up [after] milliseconds. *)
Definition latePage (h : Handle) (after : Z) : Page :=
  fun tr c =>
    match c as c' return Promise (Resp c') with
    | CWaitForSelector _ _ => Settles after (Fulfilled tt)
    | c' => demoPage (Some h) tr c'
    end.

Definition isClick (c : Call) : bool :=
  match c with CClick _ _ _ => true | _ => false end.
Definition isCheck (c : Call) : bool :=
  match c with CCheck _ => true | _ => false end.
Definition isSelectorWait (c : Call) : bool :=
  match c with CWaitForSelector _ _ => true | _ => false end.
Definition isScreenshot (c : Call) : bool :=
  match c with CScreenshot _ => true | _ => false end.

(** A world in which an earlier call left its translated selector. *)
Definition world_stale : World :=
  MkWorld (attributeQuery "data-testid" "earlier") [] [] 0 ∅.

(** ** More names used in the statements *)

(** The line the wait engine logs before it rethrows. *)
Definition waitErrorLine (selector : string) (waitState : ElementWaitState) : LogLevel * string :=
  (LError, "Error occurred while waiting for element '" +:+ selector +:+
           "' with state '" +:+ String_of_Z (ElementWaitState_value waitState) +:+ "':").

(** The lines [getElement] logs. *)
Definition foundLine (q : string) : LogLevel * string :=
  (Info, "Element with selector '" +:+ q +:+ "' has been found.").
Definition retrieveErrorLine (q : string) : LogLevel * string :=
  (LError, "Error occurred while retrieving element '" +:+ q +:+ "':").

(** The path [captureScreenshot] writes [filename] to. *)
Definition screenshotPath (env : Env) (filename : string) : string :=
  path_join [reportPath (settings env); currentDir (settings env); filename].

(** The file name of the current image of a test on a day. *)
Definition currentName (testName date : string) : string :=
  testName +:+ "-current-" +:+ date +:+ ".png".

(** The world after a timer of [dt1] ms and a screenshot of [dt2] ms that
    stored [buffer] as [filename]. *)
Definition afterCapture (env : Env) (timeout : Z) (filename : string) (dt1 dt2 : Z)
    (buffer : list byte) (w : World) : World :=
  add_log (Info, "Successfully captured screenshot: " +:+ filename)
    (set_files (<[screenshotPath env filename := buffer]> (files w))
       (advance dt2 (add_call (CScreenshot (screenshotPath env filename))
          (advance dt1 (add_call (CWaitForTimeout (Some timeout)) w))))).

(** A world in which the baseline of test [home] holds an older picture. *)
Definition world_old_baseline : World :=
  MkWorld "" [] [] 0 (<[baselinePath demoEnv "home" := twoPixels]> ∅).

(** The line a run logs when the comparison does not give [true]. *)
Definition differenceLine (env : Env) (testName date : string) : LogLevel * string :=
  (LError, "Visual difference detected for " +:+ testName +:+ ". Check " +:+
           diffPath env testName date +:+ " for differences.").

(** A date the calendar can show: a month, a day, and a year within the
    range of [Date]. *)
Definition calendarDate (d : CivilDate) : Prop :=
  (year d <= 275760)%N /\ (1 <= month d <= 12)%N /\ (1 <= day d <= 31)%N.

(** The lines the handlers of [setText] and of the toggle wrappers log. *)
Definition typingErrorLine (e : JsError) : LogLevel * string :=
  (LError, "Error occurred while typing text: " +:+ String_of_error e).
Definition selectCheckboxErrorLine (selector : string) : LogLevel * string :=
  (LError, "Error occurred while selecting checkbox with selector '" +:+ selector +:+ "':").
Definition unselectCheckboxErrorLine (selector : string) : LogLevel * string :=
  (LError, "Error occurred while unselecting checkbox with selector '" +:+ selector +:+ "':").
Definition selectDropdownErrorLine (selector opt : string) : LogLevel * string :=
  (LError, "Error occurred while selecting option '" +:+ opt +:+
           "' from dropdown with selector '" +:+ selector +:+ "':").

(** The option selector [selectDropdownOption] builds for [opt]. *)
Definition optionSelectorOf (opt : string) : string :=
  "option[value=" +:+ dquote +:+ opt +:+ dquote +:+ "], option[label=" +:+
  dquote +:+ opt +:+ dquote +:+ "]".

(** * Properties *)

(** ** The embedding at work *)

Example digits_2024 : String_of_Z 2024 = "2024".
Proof. reflexivity. Qed.

Example isoDate_example : isoDate (MkDate 2024 5 17) = "2024-05-17".
Proof. reflexivity. Qed.

Example path_join_example :
  path_join ["/repo/src/utilities"; ".."; ".."; "reports"; "visual-tests"] = "/repo/reports/visual-tests".
Proof. reflexivity. Qed.

Example path_join_dots : path_join ["/r"; "baseline"; "../x/./y-baseline.png"] = "/r/x/y-baseline.png".
Proof. reflexivity. Qed.

Example path_join_relative : path_join [""; ".."; "a/"; ""] = "../a/".
Proof. reflexivity. Qed.

Example compare_same :
  snd (compareScreenshots demoEnv "/img/a.png" "/img/a.png" "/img/d.png" world_images) =
    Returned true.
Proof. vm_compute. reflexivity. Qed.

(** ** Strings *)

#[local] Arguments String.append !s1 s2 : simpl nomatch.

Lemma list_ascii_of_append (a b : string) :
  list_ascii_of_string (a +:+ b) = list_ascii_of_string a ++ list_ascii_of_string b.
Proof. induction a as [|c a IH]; simpl; [done | by rewrite IH]. Qed.

Lemma list_ascii_inj (a b : string) :
  list_ascii_of_string a = list_ascii_of_string b -> a = b.
Proof.
  intros H. rewrite <- (string_of_list_ascii_of_string a), <- (string_of_list_ascii_of_string b).
  by rewrite H.
Qed.

Lemma append_inv_tail (s a b : string) : a +:+ s = b +:+ s -> a = b.
Proof.
  intros H. apply list_ascii_inj.
  apply (f_equal list_ascii_of_string) in H. rewrite !list_ascii_of_append in H.
  by apply app_inv_tail in H.
Qed.

Lemma append_inv_head (s a b : string) : s +:+ a = s +:+ b -> a = b.
Proof. induction s as [|c s IH]; simpl; [done | intros [= H]; auto]. Qed.

Lemma append_assoc (a b c : string) : (a +:+ b) +:+ c = a +:+ (b +:+ c).
Proof. induction a as [|x a IH]; simpl; [done | by rewrite IH]. Qed.

Lemma append_empty_r (a : string) : a +:+ "" = a.
Proof. induction a as [|x a IH]; simpl; [done | by rewrite IH]. Qed.

Lemma attributeQuery_inj (attribute x y : string) :
  attributeQuery attribute x = attributeQuery attribute y -> x = y.
Proof.
  unfold attributeQuery. intros H.
  do 4 apply append_inv_head in H. by apply append_inv_tail in H.
Qed.

(** ** Selector translation *)

(** The translator reads and changes nothing of the world. *)
Lemma formSelector_world (selector : string) (w : World) :
  fst (formSelector selector w) = w.
Proof.
  unfold formSelector. destruct (startsWith selector "#"); [done |].
  by destruct (xpathPattern_test selector).
Qed.

Lemma formSelector_any_world (selector : string) (w w' : World) :
  snd (formSelector selector w) = snd (formSelector selector w').
Proof.
  unfold formSelector. destruct (startsWith selector "#"); [done |].
  by destruct (xpathPattern_test selector).
Qed.

Lemma xpath_not_marker (selector : string) :
  xpathPattern_test selector = true -> startsWith selector "#" = false.
Proof.
  unfold xpathPattern_test. destruct selector as [|c rest]; [done |].
  simpl. destruct (Ascii.eqb_spec c "#") as [-> |]; [| done].
  simpl. done.
Qed.

Lemma formSelector_marker_eq (X : string) (w : World) :
  formSelector ("#" +:+ X) w = (w, Returned (attributeQuery "data-testid" X)).
Proof. reflexivity. Qed.

(** C6. For every remainder [X], [formSelector] maps [#X] to the
    attribute-equality query on [data-testid] with value [X]: the result is
    the query text built around [X] itself, and [X] is the only value that
    gives this query, so nothing is trimmed or transformed. *)
Theorem formSelector_marker (X : string) (w : World) :
  formSelector ("#" +:+ X) w = (w, Returned (attributeQuery "data-testid" X)) /\
  attributeQuery "data-testid" X = "[data-testid=" +:+ dquote +:+ X +:+ dquote +:+ "]" /\
  (forall Y, attributeQuery "data-testid" Y = attributeQuery "data-testid" X -> Y = X).
Proof.
  split; [| split].
  - apply formSelector_marker_eq.
  - reflexivity.
  - intros Y. apply attributeQuery_inj.
Qed.

(** C7. Every selector that begins with [//] or with an opening
    parenthesis is returned unchanged. *)
Theorem formSelector_structural_identity (selector : string) (w : World) :
  startsWith selector "//" = true \/ startsWith selector "(" = true ->
  formSelector selector w = (w, Returned selector).
Proof.
  intros H.
  assert (Hx : xpathPattern_test selector = true).
  { unfold xpathPattern_test. destruct H as [-> | ->]; [done | by rewrite orb_true_r]. }
  unfold formSelector. by rewrite (xpath_not_marker _ Hx), Hx.
Qed.

Lemma formSelector_structural_identity_witness :
  formSelector "//div[@id='main']" world0 = (world0, Returned "//div[@id='main']") /\
  formSelector "(//a)[2]" world0 = (world0, Returned "(//a)[2]").
Proof.
  split.
  - apply (formSelector_structural_identity "//div[@id='main']" world0). left. reflexivity.
  - apply (formSelector_structural_identity "(//a)[2]" world0). right. reflexivity.
Defined.

(** C8. Every selector that neither starts with the marker nor begins
    with [//] or an opening parenthesis is rejected with an error whose
    message names the selector; nothing else is tried. *)
Theorem formSelector_invalid (selector : string) (w : World) :
  startsWith selector "#" = false ->
  startsWith selector "//" = false ->
  startsWith selector "(" = false ->
  formSelector selector w = (w, Thrown (Error ("Invalid selector format: " +:+ selector))).
Proof.
  intros H1 H2 H3. unfold formSelector, xpathPattern_test. by rewrite H1, H2, H3.
Qed.

Lemma formSelector_invalid_witness :
  formSelector "submit-btn" world0 =
    (world0, Thrown (Error "Invalid selector format: submit-btn")).
Proof.
  apply (formSelector_invalid "submit-btn" world0); reflexivity.
Defined.

(** ** The wait engine *)

Section WaitEngine.

Variable page : Page.

(** Both calls of a race are issued whatever its result, and nothing else
    of the world changes but the clock. *)
Lemma await_race_world (c1 c2 : Call) (w : World) :
  exists dt, fst (await_race page c1 c2 w) = advance dt (add_call c2 (add_call c1 w)).
Proof.
  unfold await_race.
  destruct (page (calls w) c1) as [|t1 [v1|e1]],
           (page (calls (add_call c1 w)) c2) as [|t2 [v2|e2]];
    try destruct (t1 <=? t2)%Z; simpl;
    try (by eexists);
    exists 0%Z; destruct w; unfold advance, add_call; simpl; f_equal; lia.
Qed.

(** With a valid selector, the wait engine records the translated query
    and then is the race, wrapped in its handler. *)
Lemma waitForElementState_valid (selector : string) (waitState : ElementWaitState)
    (timeoutMs : option Z) (w : World) (q : string) :
  formSelector selector w = (w, Returned q) ->
  waitForElementState page selector waitState timeoutMs w =
  match await_race page (CWaitForSelector q (selectorStateOf waitState))
                   (CWaitForTimeout (chooseTimeout timeoutMs)) (set_formedSelector q w) with
  | (w', Thrown e) =>
      (add_log (LError, "Error occurred while waiting for element '" +:+ selector +:+
                        "' with state '" +:+ String_of_Z (ElementWaitState_value waitState) +:+
                        "':") w', Thrown e)
  | r => r
  end.
Proof.
  intros Hq. unfold waitForElementState, try_catch, bind at 1. rewrite Hq.
  unfold bind, put_formedSelector, get_formedSelector. simpl.
  destruct waitState; simpl;
    match goal with |- context [await_race ?p ?a ?b ?w] =>
      destruct (await_race p a b w) as [w' [u|e|]] end; reflexivity.
Qed.

Lemma waitForElementState_invalid (selector : string) (waitState : ElementWaitState)
    (timeoutMs : option Z) (w : World) (e : JsError) :
  formSelector selector w = (w, Thrown e) ->
  waitForElementState page selector waitState timeoutMs w =
    (add_log (LError, "Error occurred while waiting for element '" +:+ selector +:+
                      "' with state '" +:+ String_of_Z (ElementWaitState_value waitState) +:+
                      "':") w, Thrown e).
Proof.
  intros Hf. unfold waitForElementState, try_catch, bind at 1. rewrite Hf. reflexivity.
Qed.

(** The selector is valid or it is not. *)
Lemma formSelector_cases (selector : string) (w : World) :
  (exists q, formSelector selector w = (w, Returned q)) \/
  (exists e, formSelector selector w = (w, Thrown e)).
Proof.
  unfold formSelector. destruct (startsWith selector "#"); [left; by eexists |].
  destruct (xpathPattern_test selector); [left | right]; by eexists.
Qed.

End WaitEngine.

(** C1. With a valid selector, when the race's timer runs out after [t]
    milliseconds and the engine's selector wait has not settled by then
    (it never settles: the condition is never reached and the engine
    reports no fault; or it would settle only later), the wait engine
    returns normally, [t] milliseconds after it was called, with the unit
    value it returns in every case and without logging anything.
    Conversely, when the wait engine throws [e], either the selector
    translation threw [e], or the engine rejected the selector wait or the
    timer with [e]. *)
Theorem waitForElementState_silent_timeout :
  (forall (page : Page) (w : World) (selector : string) (waitState : ElementWaitState)
          (timeoutMs : option Z) (q : string) (t : Z) (u : unit),
     formSelector selector w = (w, Returned q) ->
     page (calls w ++ [CWaitForSelector q (selectorStateOf waitState)])
          (CWaitForTimeout (chooseTimeout timeoutMs)) = Settles t (Fulfilled u) ->
     (page (calls w) (CWaitForSelector q (selectorStateOf waitState)) = Pending \/
      exists t1 s,
        page (calls w) (CWaitForSelector q (selectorStateOf waitState)) = Settles t1 s /\
        (t < t1)%Z) ->
     let r := waitForElementState page selector waitState timeoutMs w in
     snd r = Returned tt /\ clock (fst r) = (clock w + t)%Z /\ logs (fst r) = logs w) /\
  (forall (page : Page) (w : World) (selector : string) (waitState : ElementWaitState)
          (timeoutMs : option Z) (e : JsError),
     snd (waitForElementState page selector waitState timeoutMs w) = Thrown e ->
     formSelector selector w = (w, Thrown e) \/
     exists q dt,
       formSelector selector w = (w, Returned q) /\
       (page (calls w) (CWaitForSelector q (selectorStateOf waitState)) =
          Settles dt (Rejected e) \/
        page (calls w ++ [CWaitForSelector q (selectorStateOf waitState)])
             (CWaitForTimeout (chooseTimeout timeoutMs)) = Settles dt (Rejected e))).
Proof.
  split.
  - intros page w selector waitState timeoutMs q t u Hq Htimer Hwins r. subst r.
    rewrite (waitForElementState_valid page _ _ _ _ _ Hq).
    unfold await_race. simpl. rewrite Htimer.
    destruct Hwins as [-> | (t1 & s & -> & Hlt)]; [done |].
    destruct (Z.leb_spec t1 t) as [Hle | _]; [lia |]. done.
  - intros page w selector waitState timeoutMs e Hthrow.
    destruct (formSelector_cases selector w) as [[q Hq] | [e' He']].
    + right. rewrite (waitForElementState_valid page _ _ _ _ _ Hq) in Hthrow.
      unfold await_race in Hthrow. simpl in Hthrow.
      destruct (page (calls w) (CWaitForSelector q (selectorStateOf waitState)))
        as [|t1 [v1|e1]] eqn:H1;
      destruct (page (calls w ++ [CWaitForSelector q (selectorStateOf waitState)])
                     (CWaitForTimeout (chooseTimeout timeoutMs))) as [|t2 [v2|e2]] eqn:H2;
        try destruct (t1 <=? t2)%Z; simpl in Hthrow; try discriminate;
        injection Hthrow as ->; exists q; eauto.
    + left. rewrite (waitForElementState_invalid page _ waitState timeoutMs _ _ He') in Hthrow.
      injection Hthrow as ->. done.
Qed.

Lemma waitForElementState_silent_timeout_witness :
  (let r := waitForElementState (demoPage None) "#submit-btn" VISIBLE (Some 5000%Z) world0 in
   snd r = Returned tt /\ clock (fst r) = (clock world0 + 5000)%Z /\ logs (fst r) = logs world0) /\
  (formSelector "submit-btn" world0 =
     (world0, Thrown (Error "Invalid selector format: submit-btn")) \/
   exists q dt,
     formSelector "submit-btn" world0 = (world0, Returned q) /\
     (demoPage None (calls world0) (CWaitForSelector q (selectorStateOf PRESENT)) =
        Settles dt (Rejected (Error "Invalid selector format: submit-btn")) \/
      demoPage None (calls world0 ++ [CWaitForSelector q (selectorStateOf PRESENT)])
               (CWaitForTimeout (chooseTimeout None)) =
        Settles dt (Rejected (Error "Invalid selector format: submit-btn")))).
Proof.
  split.
  - apply (proj1 waitForElementState_silent_timeout (demoPage None) world0 "#submit-btn"
             VISIBLE (Some 5000%Z) (attributeQuery "data-testid" "submit-btn") 5000%Z tt).
    + reflexivity.
    + reflexivity.
    + left. reflexivity.
  - apply (proj2 waitForElementState_silent_timeout (demoPage None) world0 "submit-btn"
             PRESENT None (Error "Invalid selector format: submit-btn")).
    reflexivity.
Defined.

(** C2. With a valid selector and a timeout that is absent or not
    positive, the timer the wait engine starts for the race has the
    duration [undefined], the value of the never-assigned
    [defaultTimeout]; it is not 30 000 ms. *)
Theorem waitForElementState_default_timer (page : Page) (w : World) (selector : string)
    (waitState : ElementWaitState) (timeoutMs : option Z) (q : string) :
  (timeoutMs = None \/ exists t, timeoutMs = Some t /\ (t <= 0)%Z) ->
  formSelector selector w = (w, Returned q) ->
  calls (fst (waitForElementState page selector waitState timeoutMs w)) =
    calls w ++ [CWaitForSelector q (selectorStateOf waitState); CWaitForTimeout None] /\
  chooseTimeout timeoutMs <> Some 30000%Z.
Proof.
  intros Habsent Hq.
  assert (Hc : chooseTimeout timeoutMs = None).
  { destruct Habsent as [-> | (t & -> & Ht)]; [done |].
    unfold chooseTimeout. destruct (0 <? t)%Z eqn:E; [lia | done]. }
  split; [| by rewrite Hc].
  rewrite (waitForElementState_valid page _ _ _ _ _ Hq), Hc.
  destruct (await_race_world page (CWaitForSelector q (selectorStateOf waitState))
              (CWaitForTimeout None) (set_formedSelector q w)) as [dt Hw].
  destruct (await_race page _ _ _) as [w' [u|e|]]; simpl in *; subst w'; simpl;
    by rewrite <- app_assoc.
Qed.

Lemma waitForElementState_default_timer_witness :
  calls (fst (waitForElementState (demoPage (Some 7)) "#submit-btn" VISIBLE None world0)) =
    calls world0 ++ [CWaitForSelector (attributeQuery "data-testid" "submit-btn")
                       (selectorStateOf VISIBLE); CWaitForTimeout None] /\
  chooseTimeout None <> Some 30000%Z.
Proof.
  apply (waitForElementState_default_timer (demoPage (Some 7)) world0 "#submit-btn" VISIBLE None
           (attributeQuery "data-testid" "submit-btn")).
  - left. reflexivity.
  - reflexivity.
Defined.

(** ** Element access and the action wrappers *)

Section Accessor.

Variable page : Page.

(** When the wait engine returns, the translated query is in
    [formedSelector] and exactly the two calls of the race were issued. *)
Lemma waitForElementState_returned (selector : string) (waitState : ElementWaitState)
    (timeoutMs : option Z) (w w' : World) (q : string) (u : unit) :
  formSelector selector w = (w, Returned q) ->
  waitForElementState page selector waitState timeoutMs w = (w', Returned u) ->
  formedSelector w' = q /\
  calls w' = calls w ++ [CWaitForSelector q (selectorStateOf waitState);
                         CWaitForTimeout (chooseTimeout timeoutMs)].
Proof.
  intros Hq Hr. rewrite (waitForElementState_valid page _ _ _ _ _ Hq) in Hr.
  destruct (await_race_world page (CWaitForSelector q (selectorStateOf waitState))
              (CWaitForTimeout (chooseTimeout timeoutMs)) (set_formedSelector q w)) as [dt Hw].
  destruct (await_race page _ _ _) as [w2 [u2|e|]]; simpl in *; [| done..].
  injection Hr as <- _. subst w2. simpl. by rewrite <- app_assoc.
Qed.

(** When [getElement] returns, it has issued the two calls of the race
    and one query, all three on the translated selector. *)
Lemma getElement_returned (selector : string) (waitState : option ElementWaitState)
    (timeoutMs : option Z) (w w' : World) (q : string) (element : option Handle) :
  formSelector selector w = (w, Returned q) ->
  getElement page selector waitState timeoutMs w = (w', Returned element) ->
  calls w' = calls w ++ [CWaitForSelector q (selectorStateOf (orVisible waitState));
                         CWaitForTimeout (chooseTimeout (chooseTimeout timeoutMs));
                         CQuery q].
Proof.
  intros Hq Hr. unfold getElement, try_catch, bind at 1 in Hr.
  destruct (waitForElementState page selector (orVisible waitState)
              (chooseTimeout timeoutMs) w) as [w1 [u|e|]] eqn:Hwait.
  - destruct (waitForElementState_returned _ _ _ _ _ _ _ Hq Hwait) as [Hsel Hcalls].
    unfold bind, get_formedSelector, await, logger_info, ret, logger_error, throw in Hr.
    simpl in Hr. rewrite Hsel in Hr.
    destruct (page (calls w1) (CQuery q)) as [|dt [v|e]]; simpl in Hr; try done.
    injection Hr as <- _. simpl. rewrite Hcalls, <- app_assoc. done.
  - unfold bind, get_formedSelector, logger_error, throw in Hr. simpl in Hr. done.
  - done.
Qed.

End Accessor.

(** A handler that only logs turns every outcome of the body into one that
    is not a throw. *)
Ltac swallows :=
  unfold setText, selectCheckbox, unselectCheckbox, selectDropdownOption, try_catch,
    logger_error;
  match goal with
  | |- context [match ?m ?w with _ => _ end] => destruct (m w) as [? [?|?|]]
  end; simpl; done.

(** C3 (as amended). When [getElement] resolves the selector to no element:
    [clearText], [keyPress] and [getText] throw the explicit not-found
    error that names the selector; [click] returns normally without acting
    on the page and without logging an error, and so do [selectCheckbox],
    [unselectCheckbox] and [selectDropdownOption]. [setText] and the three
    toggle wrappers throw in no case at all: whenever [getElement] throws,
    or the engine rejects the action on the element found, a toggle
    wrapper logs one error line with its own message and returns; whenever
    its first wait, [clearText] or the typing throws, [setText] logs one
    error line that carries the error and returns. So [setText] on an
    absent element logs the not-found error of [clearText] and returns
    normally. *)
Theorem absent_element_policy (page : Page) (w w1 : World) (selector : string)
    (waitState : option ElementWaitState) (timeoutMs : option Z) :
  getElement page selector waitState timeoutMs w = (w1, Returned None) ->
  snd (clearText page selector waitState timeoutMs w) = Thrown (notFound selector) /\
  (forall key, snd (keyPress page selector key waitState timeoutMs w) =
                 Thrown (notFound selector)) /\
  snd (getText page selector waitState timeoutMs w) = Thrown (notFound selector) /\
  (forall modifiers button,
     click page selector modifiers button waitState timeoutMs w = (w1, Returned tt)) /\
  selectCheckbox page selector waitState timeoutMs w = (w1, Returned tt) /\
  unselectCheckbox page selector waitState timeoutMs w = (w1, Returned tt) /\
  (forall opt, selectDropdownOption page selector opt waitState timeoutMs w =
                 (w1, Returned tt)) /\
  (forall w0 sel text delay tm ws opt e,
     snd (setText page sel text delay tm w0) <> Thrown e /\
     snd (selectCheckbox page sel ws tm w0) <> Thrown e /\
     snd (unselectCheckbox page sel ws tm w0) <> Thrown e /\
     snd (selectDropdownOption page sel opt ws tm w0) <> Thrown e) /\
  (forall w0 w' sel ws tm opt e,
     getElement page sel ws tm w0 = (w', Thrown e) ->
     selectCheckbox page sel ws tm w0 = (add_log (selectCheckboxErrorLine sel) w', Returned tt) /\
     unselectCheckbox page sel ws tm w0 =
       (add_log (unselectCheckboxErrorLine sel) w', Returned tt) /\
     selectDropdownOption page sel opt ws tm w0 =
       (add_log (selectDropdownErrorLine sel opt) w', Returned tt)) /\
  (forall w0 w' sel ws tm opt h dt e,
     getElement page sel ws tm w0 = (w', Returned (Some h)) ->
     (page (calls w') (CCheck h) = Settles dt (Rejected e) ->
      selectCheckbox page sel ws tm w0 =
        (add_log (selectCheckboxErrorLine sel) (advance dt (add_call (CCheck h) w')),
         Returned tt)) /\
     (page (calls w') (CUncheck h) = Settles dt (Rejected e) ->
      unselectCheckbox page sel ws tm w0 =
        (add_log (unselectCheckboxErrorLine sel) (advance dt (add_call (CUncheck h) w')),
         Returned tt)) /\
     (page (calls w') (CSelectOption h (optionSelectorOf opt)) = Settles dt (Rejected e) ->
      selectDropdownOption page sel opt ws tm w0 =
        (add_log (selectDropdownErrorLine sel opt)
           (advance dt (add_call (CSelectOption h (optionSelectorOf opt)) w')),
         Returned tt))) /\
  (forall w0 w' sel text delay tm e,
     waitForElementState page sel VISIBLE tm w0 = (w', Thrown e) ->
     setText page sel text delay tm w0 = (add_log (typingErrorLine e) w', Returned tt)) /\
  (forall w0 w' w2 sel text delay tm u e,
     waitForElementState page sel VISIBLE tm w0 = (w', Returned u) ->
     clearText page sel (Some VISIBLE) tm w' = (w2, Thrown e) ->
     setText page sel text delay tm w0 = (add_log (typingErrorLine e) w2, Returned tt)) /\
  (forall w0 w' w2 sel text delay tm u u' dt e,
     waitForElementState page sel VISIBLE tm w0 = (w', Returned u) ->
     clearText page sel (Some VISIBLE) tm w' = (w2, Returned u') ->
     page (calls w2) (CType (formedSelector w2) text delay) = Settles dt (Rejected e) ->
     setText page sel text delay tm w0 =
       (add_log (typingErrorLine e)
          (advance dt (add_call (CType (formedSelector w2) text delay) w2)),
        Returned tt)) /\
  (forall w0 w' w2 sel text delay tm u,
     waitForElementState page sel VISIBLE tm w0 = (w', Returned u) ->
     getElement page sel (Some VISIBLE) tm w' = (w2, Returned None) ->
     exists w3,
       setText page sel text delay tm w0 =
         (add_log (typingErrorLine (notFound sel)) w3, Returned tt)).
Proof.
  intros Habsent.
  repeat match goal with |- _ /\ _ => split end.
  1-7: intros;
    unfold clearText, keyPress, getText, click, selectCheckbox, unselectCheckbox,
      selectDropdownOption, try_catch, bind at 1;
    rewrite Habsent; reflexivity.
  - intros. repeat split; swallows.
  - intros w0 w' sel ws tm opt e Hget.
    repeat split;
      unfold selectCheckbox, unselectCheckbox, selectDropdownOption, try_catch, bind at 1;
      rewrite Hget; reflexivity.
  - intros w0 w' sel ws tm opt h dt e Hget.
    repeat split; intros Hact;
      unfold selectCheckbox, unselectCheckbox, selectDropdownOption, try_catch, bind at 1;
      rewrite Hget; unfold bind, await; unfold optionSelectorOf in Hact;
      rewrite Hact; reflexivity.
  - intros w0 w' sel text delay tm e Hwait.
    unfold setText, try_catch, bind at 1. rewrite Hwait. reflexivity.
  - intros w0 w' w2 sel text delay tm u e Hwait Hclear.
    unfold setText, try_catch, bind at 1. rewrite Hwait.
    unfold bind at 1. rewrite Hclear. reflexivity.
  - intros w0 w' w2 sel text delay tm u u' dt e Hwait Hclear Htype.
    unfold setText, try_catch, bind at 1. rewrite Hwait.
    unfold bind at 1. rewrite Hclear.
    unfold bind, get_formedSelector, await. rewrite Htype. reflexivity.
  - intros w0 w' w2 sel text delay tm u Hwait Hget.
    assert (Hclear : clearText page sel (Some VISIBLE) tm w' =
                     (add_log (LError, "Error occurred while clearing text in element with selector '" +:+
                                       sel +:+ "':") w2, Thrown (notFound sel))).
    { unfold clearText, try_catch, bind at 1. rewrite Hget. reflexivity. }
    eexists. unfold setText, try_catch, bind at 1. rewrite Hwait.
    unfold bind at 1. rewrite Hclear. reflexivity.
Qed.

Lemma absent_element_policy_witness :
  snd (clearText (demoPage None) "#missing" None (Some 1000%Z) world0) =
    Thrown (notFound "#missing") /\
  snd (getText (demoPage None) "#missing" None (Some 1000%Z) world0) =
    Thrown (notFound "#missing") /\
  snd (click (demoPage None) "#missing" [] "left" None (Some 1000%Z) world0) = Returned tt /\
  logs (fst (selectCheckbox (demoPage None) "#missing" None (Some 1000%Z) world0)) =
    logs (fst (getElement (demoPage None) "#missing" None (Some 1000%Z) world0)) /\
  (exists w3,
     setText (demoPage None) "#missing" "hello" 0 (Some 1000%Z) world0 =
       (add_log (typingErrorLine (notFound "#missing")) w3, Returned tt)) /\
  selectCheckbox (demoPage None) "submit-btn" None None world0 =
    (add_log (selectCheckboxErrorLine "submit-btn")
       (fst (getElement (demoPage None) "submit-btn" None None world0)),
     Returned tt).
Proof.
  destruct (absent_element_policy (demoPage None) world0
              (fst (getElement (demoPage None) "#missing" None (Some 1000%Z) world0))
              "#missing" None (Some 1000%Z))
    as (Hclear & _ & Htext & Hclick & Hselect & _ & _ & _ & Hthrown & _ & _ & _ & _ & Hset).
  { vm_compute. reflexivity. }
  split; [exact Hclear |]. split; [exact Htext |].
  split; [rewrite (Hclick [] "left"); reflexivity |].
  split; [rewrite Hselect; reflexivity |].
  split.
  - apply (Hset world0
             (fst (waitForElementState (demoPage None) "#missing" VISIBLE (Some 1000%Z) world0))
             (fst (getElement (demoPage None) "#missing" (Some VISIBLE) (Some 1000%Z)
                     (fst (waitForElementState (demoPage None) "#missing" VISIBLE
                             (Some 1000%Z) world0))))
             "#missing" "hello" 0%Z (Some 1000%Z) tt).
    + vm_compute. reflexivity.
    + vm_compute. reflexivity.
  - apply (Hthrown world0 (fst (getElement (demoPage None) "submit-btn" None None world0))
             "submit-btn" None None "" (Error "Invalid selector format: submit-btn")).
    vm_compute. reflexivity.
Defined.

(** C3 (as stated) fails: on a page where the element is absent, [click]
    and [setText] both return normally instead of throwing. *)
Lemma click_setText_absent_return :
  snd (getElement (demoPage None) "#missing" None (Some 1000%Z) world0) = Returned None /\
  snd (click (demoPage None) "#missing" [] "left" None (Some 1000%Z) world0) = Returned tt /\
  snd (setText (demoPage None) "#missing" "hello" 0 (Some 1000%Z) world0) = Returned tt.
Proof. vm_compute. repeat split. Qed.

(** C10. When [isElementChecked] finds the element, the calls it has made
    on the engine are the selector wait, the timer and the query of
    [getElement], all on the translated selector, followed by one read of
    the [checked] property on the selector as the caller wrote it. For a
    short-form selector [#X] the first three use [[data-testid="X"]] and
    the read uses [#X], a different query. *)
Theorem isElementChecked_reads_raw_selector (page : Page) (w w1 : World) (selector q : string)
    (timeoutMs : option Z) (h : Handle) :
  formSelector selector w = (w, Returned q) ->
  getElement page selector (Some VISIBLE) timeoutMs w = (w1, Returned (Some h)) ->
  calls (fst (isElementChecked page selector timeoutMs w)) =
    calls w ++ [CWaitForSelector q (Some StateVisible);
                CWaitForTimeout (chooseTimeout (chooseTimeout timeoutMs));
                CQuery q;
                CEvalChecked selector] /\
  (forall X, selector = "#" +:+ X ->
     q = attributeQuery "data-testid" X /\ q <> selector).
Proof.
  intros Hq Hget. split.
  - pose proof (getElement_returned page _ _ _ _ _ _ _ Hq Hget) as Hcalls.
    unfold isElementChecked, try_catch, bind at 1. rewrite Hget.
    unfold bind, await, logger_info, logger_error, ret, throw.
    destruct (page (calls w1) (CEvalChecked selector)) as [|dt [v|e]]; simpl.
    + by rewrite Hcalls, <- app_assoc.
    + destruct v as [| |[|]| |]; simpl; by rewrite Hcalls, <- app_assoc.
    + by rewrite Hcalls, <- app_assoc.
  - intros X ->. rewrite formSelector_marker_eq in Hq. injection Hq as <-. done.
Qed.

Lemma isElementChecked_reads_raw_selector_witness :
  calls (fst (isElementChecked (demoPage (Some 7)) "#agree" (Some 1000%Z) world0)) =
    calls world0 ++ [CWaitForSelector (attributeQuery "data-testid" "agree") (Some StateVisible);
                     CWaitForTimeout (chooseTimeout (chooseTimeout (Some 1000%Z)));
                     CQuery (attributeQuery "data-testid" "agree");
                     CEvalChecked "#agree"] /\
  (forall X, "#agree" = "#" +:+ X ->
     attributeQuery "data-testid" "agree" = attributeQuery "data-testid" X /\
     attributeQuery "data-testid" "agree" <> "#agree").
Proof.
  apply (isElementChecked_reads_raw_selector (demoPage (Some 7)) world0
           (fst (getElement (demoPage (Some 7)) "#agree" (Some VISIBLE) (Some 1000%Z) world0))
           "#agree" (attributeQuery "data-testid" "agree") (Some 1000%Z) 7).
  - reflexivity.
  - vm_compute. reflexivity.
Defined.

(** ** Image comparison *)

Section Comparison.

Variable env : Env.

(** The comparison, step by step: each step that throws ends in the
    handler, with the world as it was. *)
Lemma compareScreenshots_steps (image1 image2 diffImage : string) (w : World) :
  compareScreenshots env image1 image2 diffImage w =
  match files w !! image1 with
  | None => comparison_failed (noEntry image1) w
  | Some buf1 =>
    match png_read env buf1 with
    | inl e => comparison_failed e w
    | inr img1 =>
      match files w !! image2 with
      | None => comparison_failed (noEntry image2) w
      | Some buf2 =>
        match png_read env buf2 with
        | inl e => comparison_failed e w
        | inr img2 =>
          match pixelmatch env (data img1) (data img2)
                  (data (newPNG (width img1) (height img1)))
                  (width img1) (height img1) (1 # 10)%Q with
          | inl e => comparison_failed e w
          | inr r =>
              if writable env diffImage then
                (set_files (<[diffImage :=
                                png_write env (MkImage (width img1) (height img1) (snd r))]>
                              (files w)) w,
                 Returned (fst r =? 0)%Z)
              else comparison_failed (noAccess diffImage) w
          end
        end
      end
    end
  end.
Proof.
  unfold compareScreenshots, try_catch, bind, fs_readFileSync, fs_writeFileSync, lift_sync,
    comparison_failed, logger_error, ret, throw.
  destruct (files w !! image1) as [buf1|]; [| reflexivity].
  destruct (png_read env buf1) as [e|img1]; [reflexivity |].
  destruct (files w !! image2) as [buf2|]; [| reflexivity].
  destruct (png_read env buf2) as [e|img2]; [reflexivity |].
  simpl. destruct (pixelmatch env _ _ _ _ _ _) as [e|r]; [reflexivity |].
  destruct (writable env diffImage); reflexivity.
Qed.

End Comparison.

(** The result is on the table: the remaining conditions are read off the
    case at hand. *)
Ltac settle :=
  eexists _, _; split; [reflexivity |];
  repeat match goal with |- _ /\ _ => split end;
  intros; try done; try congruence;
  repeat match goal with H : _ \/ _ |- _ => destruct H end;
  try done; try congruence; simplify_eq; try done; try congruence.

(** C9. [compareScreenshots] always returns a boolean and never throws;
    the boolean is [false] whenever a file cannot be read, an image cannot
    be decoded, the differ throws (as it does on a size mismatch) or the
    diff cannot be written. [runVisualTests], which consumes the boolean,
    throws in no case either. *)
Theorem compareScreenshots_never_throws (env : Env) (w : World)
    (image1 image2 diffImage : string) :
  exists w' b,
    compareScreenshots env image1 image2 diffImage w = (w', Returned b) /\
    (files w !! image1 = None \/ files w !! image2 = None -> b = false) /\
    (forall buf e,
       (files w !! image1 = Some buf \/ files w !! image2 = Some buf) ->
       png_read env buf = inl e -> b = false) /\
    (forall buf1 buf2 img1 img2 e,
       files w !! image1 = Some buf1 -> png_read env buf1 = inr img1 ->
       files w !! image2 = Some buf2 -> png_read env buf2 = inr img2 ->
       pixelmatch env (data img1) (data img2) (data (newPNG (width img1) (height img1)))
                  (width img1) (height img1) (1 # 10)%Q = inl e ->
       b = false) /\
    (writable env diffImage = false -> b = false) /\
    (forall page testName timeout w0 e,
       snd (runVisualTests env page testName timeout w0) <> Thrown e).
Proof.
  assert (Hrun : forall page testName timeout w0 e,
             snd (runVisualTests env page testName timeout w0) <> Thrown e).
  { intros. unfold runVisualTests, try_catch, logger_error.
    match goal with
    | |- context [match ?m ?w with _ => _ end] => destruct (m w) as [? [?|?|]]
    end; simpl; done. }
  rewrite compareScreenshots_steps. unfold comparison_failed.
  destruct (files w !! image1) as [buf1|] eqn:H1; [| settle].
  destruct (png_read env buf1) as [e1|img1] eqn:Hd1; [settle |].
  destruct (files w !! image2) as [buf2|] eqn:H2; [| settle].
  destruct (png_read env buf2) as [e2|img2] eqn:Hd2; [settle |].
  destruct (pixelmatch env _ _ _ _ _ _) as [e|r] eqn:Hp; [settle |].
  destruct (writable env diffImage) eqn:Hw; settle.
Qed.

Lemma compareScreenshots_never_throws_witness :
  exists w' b,
    compareScreenshots demoEnv "/img/a.png" "/img/missing.png" "/img/d.png" world_images =
      (w', Returned b) /\ b = false.
Proof.
  destruct (compareScreenshots_never_throws demoEnv world_images
              "/img/a.png" "/img/missing.png" "/img/d.png")
    as (w' & b & Heq & Hmissing & _).
  exists w', b. split; [exact Heq |].
  apply Hmissing. right. vm_compute. reflexivity.
Defined.

(** C4 (as amended). With a differ that refuses buffers of unequal size,
    as [pixelmatch] does, and two readable images whose pixel buffers
    differ in size, [compareScreenshots] catches the differ's error, logs
    it and returns [false]: nothing is thrown to the caller, and the file
    system is as before, so no diff artifact is written. *)
Theorem compareScreenshots_size_mismatch (env : Env) (w : World)
    (image1 image2 diffImage : string) (buf1 buf2 : list byte) (img1 img2 : Image) :
  (forall d1 d2 out wd ht th,
     length d1 <> length d2 -> exists e, pixelmatch env d1 d2 out wd ht th = inl e) ->
  files w !! image1 = Some buf1 -> png_read env buf1 = inr img1 ->
  files w !! image2 = Some buf2 -> png_read env buf2 = inr img2 ->
  length (data img1) <> length (data img2) ->
  exists e,
    compareScreenshots env image1 image2 diffImage w =
      (add_log (LError, "Error while comparing screenshots: " +:+ String_of_error e) w,
       Returned false) /\
    files (fst (compareScreenshots env image1 image2 diffImage w)) = files w.
Proof.
  intros Hguard H1 Hd1 H2 Hd2 Hsize.
  destruct (Hguard (data img1) (data img2) (data (newPNG (width img1) (height img1)))
              (width img1) (height img1) (1 # 10)%Q Hsize) as [e He].
  exists e. rewrite compareScreenshots_steps, H1, Hd1, H2, Hd2, He. done.
Qed.

Lemma demo_pixelmatch_guard (d1 d2 out : list byte) (wd ht : Z) (th : Q) :
  length d1 <> length d2 -> exists e, demo_pixelmatch d1 d2 out wd ht th = inl e.
Proof.
  intros Hne. unfold demo_pixelmatch.
  destruct (Nat.eqb_spec (length d1) (length d2)); [done |]. simpl. by eexists.
Qed.

Lemma compareScreenshots_size_mismatch_witness :
  exists e,
    compareScreenshots demoEnv "/img/a.png" "/img/b.png" "/img/d.png" world_images =
      (add_log (LError, "Error while comparing screenshots: " +:+ String_of_error e)
         world_images, Returned false) /\
    files (fst (compareScreenshots demoEnv "/img/a.png" "/img/b.png" "/img/d.png"
                  world_images)) = files world_images.
Proof.
  apply (compareScreenshots_size_mismatch demoEnv world_images "/img/a.png" "/img/b.png"
           "/img/d.png" onePixel twoPixels
           (MkImage 1 1 [xff; xff; xff; xff])
           (MkImage 2 1 [xff; xff; xff; xff; xff; xff; xff; xff])).
  - exact demo_pixelmatch_guard.
  - vm_compute. reflexivity.
  - reflexivity.
  - vm_compute. reflexivity.
  - reflexivity.
  - simpl. lia.
Defined.

(** C4 (as stated) fails: the two images on disk have widths 1 and 2, and
    the comparison returns [false] to its caller instead of throwing. *)
Lemma compareScreenshots_mismatch_returns_false :
  (exists buf1 buf2 img1 img2,
     files world_images !! "/img/a.png" = Some buf1 /\ demo_png_read buf1 = inr img1 /\
     files world_images !! "/img/b.png" = Some buf2 /\ demo_png_read buf2 = inr img2 /\
     width img1 <> width img2) /\
  snd (compareScreenshots demoEnv "/img/a.png" "/img/b.png" "/img/d.png" world_images) =
    Returned false.
Proof.
  split.
  - exists onePixel, twoPixels, (MkImage 1 1 [xff; xff; xff; xff]),
      (MkImage 2 1 [xff; xff; xff; xff; xff; xff; xff; xff]).
    repeat split; try (vm_compute; reflexivity). simpl. lia.
  - vm_compute. reflexivity.
Qed.

(** ** What a run writes *)

(** Membership goals over short lists of paths. *)
Ltac paths :=
  repeat intro;
  repeat match goal with
  | H : _ ∈ [] |- _ => apply elem_of_nil in H; destruct H
  | H : _ ∈ _ :: _ |- _ => apply elem_of_cons in H as [H | H]; [try subst |]
  end;
  rewrite ?elem_of_cons; try congruence; auto.

Section Frame.

Context {A B : Type}.

Lemma writes_only_same (m : M A) (w : World) (paths : list string) :
  files (fst (m w)) = files w -> writes_only m w paths.
Proof. intros H p _. by rewrite H. Qed.

Lemma writes_only_mono (m : M A) (w : World) (paths paths' : list string) :
  paths ⊆ paths' -> writes_only m w paths -> writes_only m w paths'.
Proof. intros Hsub H p Hp. apply H. set_solver. Qed.

Lemma writes_only_bind (m : M A) (k : A -> M B) (w : World) (paths : list string) :
  writes_only m w paths ->
  (forall a w', m w = (w', Returned a) -> writes_only (k a) w' paths) ->
  writes_only (bind m k) w paths.
Proof.
  intros Hm Hk p Hp. unfold bind. specialize (Hm p Hp).
  destruct (m w) as [w' [a|e|]] eqn:E; simpl in *; [| done..].
  rewrite <- Hm. by apply (Hk a w').
Qed.

Lemma writes_only_try (m : M A) (h : JsError -> M A) (w : World) (paths : list string) :
  writes_only m w paths ->
  (forall e w', m w = (w', Thrown e) -> writes_only (h e) w' paths) ->
  writes_only (try_catch m h) w paths.
Proof.
  intros Hm Hh p Hp. unfold try_catch. specialize (Hm p Hp).
  destruct (m w) as [w' [a|e|]] eqn:E; simpl in *; [done | | done].
  rewrite <- Hm. by apply (Hh e w').
Qed.

End Frame.

Lemma writes_only_ret {A} (a : A) (w : World) (paths : list string) :
  writes_only (ret a) w paths.
Proof. by apply writes_only_same. Qed.

Lemma writes_only_throw {A} (e : JsError) (w : World) (paths : list string) :
  writes_only (@throw A e) w paths.
Proof. by apply writes_only_same. Qed.

Lemma writes_only_logger_info (msg : string) (w : World) (paths : list string) :
  writes_only (logger_info msg) w paths.
Proof. by apply writes_only_same. Qed.

Lemma writes_only_logger_error (msg : string) (w : World) (paths : list string) :
  writes_only (logger_error msg) w paths.
Proof. by apply writes_only_same. Qed.

Lemma writes_only_await (page : Page) (c : Call) (w : World) (paths : list string) :
  writes_only (await page c) w paths.
Proof.
  apply writes_only_same. unfold await.
  by destruct (page (calls w) c) as [|dt [v|e]].
Qed.

Lemma writes_only_log_throw {A} (msg : string) (e : JsError) (w : World)
    (paths : list string) :
  writes_only (logger_error msg ;; @throw A e) w paths.
Proof. by apply writes_only_same. Qed.

Section VisualFrame.

Variables (env : Env) (page : Page).

Lemma writes_only_writeFileSync (path : string) (content : list byte) (w : World) :
  writes_only (fs_writeFileSync env path content) w [path].
Proof.
  intros p Hp. unfold fs_writeFileSync. destruct (writable env path); [| done].
  simpl. apply lookup_insert_ne. set_solver.
Qed.

Lemma writes_only_copyFileSync (src dest : string) (w : World) :
  writes_only (fs_copyFileSync env src dest) w [dest].
Proof.
  apply writes_only_bind.
  - apply writes_only_same. unfold fs_readFileSync. by destruct (files w !! src).
  - intros content w' _. apply writes_only_writeFileSync.
Qed.

Lemma writes_only_screenshot (path : string) (w : World) :
  writes_only (page_screenshot page path) w [path].
Proof.
  apply writes_only_bind; [apply writes_only_await |].
  intros buffer w' _ p Hp. simpl. apply lookup_insert_ne. set_solver.
Qed.

Lemma writes_only_captureScreenshot (filename : string) (w : World) :
  writes_only (captureScreenshot env page filename) w
    [path_join [reportPath (settings env); currentDir (settings env); filename]].
Proof.
  apply writes_only_try.
  - apply writes_only_bind; [apply writes_only_screenshot |].
    intros. apply writes_only_logger_info.
  - intros. apply writes_only_log_throw.
Qed.

Lemma writes_only_compareScreenshots (image1 image2 diffImage : string) (w : World) :
  writes_only (compareScreenshots env image1 image2 diffImage) w [diffImage].
Proof.
  intros p Hp. rewrite compareScreenshots_steps. unfold comparison_failed.
  destruct (files w !! image1) as [buf1|]; [| done].
  destruct (png_read env buf1) as [e1|img1]; [done |].
  destruct (files w !! image2) as [buf2|]; [| done].
  destruct (png_read env buf2) as [e2|img2]; [done |].
  destruct (pixelmatch env _ _ _ _ _ _) as [e|r]; [done |].
  destruct (writable env diffImage); [| done].
  simpl. apply lookup_insert_ne. set_solver.
Qed.

Lemma writes_only_createBaselineImage (testName : string) (timeout : Z) (w : World) :
  writes_only (createBaselineImage env page testName timeout) w
    [currentPath env testName (dateOf env w); baselinePath env testName].
Proof.
  apply writes_only_try; [| intros; apply writes_only_logger_error].
  apply writes_only_bind; [by apply writes_only_same |].
  intros date w' Hdate. unfold currentDate_now in Hdate. injection Hdate as <- <-.
  apply writes_only_bind; [apply writes_only_await |]. intros _ w1 _.
  apply writes_only_bind.
  { eapply writes_only_mono; [| apply writes_only_captureScreenshot].
    unfold currentPath, dateOf. paths. }
  intros _ w2 _.
  apply writes_only_bind; [apply writes_only_logger_info |]. intros _ w3 _.
  eapply writes_only_mono; [| apply writes_only_copyFileSync].
  unfold baselinePath. paths.
Qed.

(** A run writes the current image and, when the baseline exists, the
    diff image; when the baseline does not exist, the baseline. *)
Lemma writes_only_runVisualTests (testName : string) (timeout : Z) (w : World) :
  writes_only (runVisualTests env page testName timeout) w
    (if bool_decide (is_Some (files w !! baselinePath env testName))
     then [currentPath env testName (dateOf env w); diffPath env testName (dateOf env w)]
     else [currentPath env testName (dateOf env w); baselinePath env testName]).
Proof.
  apply writes_only_try; [| intros; apply writes_only_logger_error].
  apply writes_only_bind; [by apply writes_only_same |].
  intros date w' Hdate. unfold currentDate_now in Hdate. injection Hdate as <- <-.
  apply writes_only_bind; [by apply writes_only_same |].
  intros baselineExists w' Hex. unfold fs_existsSync in Hex. injection Hex as <- <-.
  unfold baselinePath.
  destruct (bool_decide (is_Some (files w !! _))); unfold negb.
  - apply writes_only_bind; [apply writes_only_await |]. intros _ w1 _.
    apply writes_only_bind.
    { eapply writes_only_mono; [| apply writes_only_captureScreenshot].
      unfold currentPath, dateOf. paths. }
    intros _ w2 _.
    apply writes_only_bind.
    { eapply writes_only_mono; [| apply writes_only_compareScreenshots].
      unfold diffPath, dateOf. paths. }
    intros isIdentical w3 _.
    destruct isIdentical; [apply writes_only_ret | apply writes_only_logger_error].
  - apply writes_only_createBaselineImage.
Qed.

End VisualFrame.

(** ** Paths *)

Lemma split_slash_nonempty (s : string) : split_slash s <> [].
Proof.
  destruct s as [|c r]; simpl; [done |].
  destruct (Ascii.eqb c slash); [done |]. by destruct (split_slash r).
Qed.

Lemma join_split (s : string) : join_slash (split_slash s) = s.
Proof.
  induction s as [|c r IH]; [done |]. simpl.
  destruct (Ascii.eqb_spec c slash) as [-> | Hc].
  - pose proof (split_slash_nonempty r) as Hne.
    destruct (split_slash r) as [|seg segs]; [done |].
    change (join_slash ("" :: seg :: segs)) with ("" +:+ "/" +:+ join_slash (seg :: segs)).
    by rewrite IH.
  - destruct (split_slash r) as [|seg segs]; [by rewrite <- IH |].
    rewrite <- IH. destruct segs; reflexivity.
Qed.

Lemma noSlash_append (a b : string) : noSlash (a +:+ b) = noSlash a && noSlash b.
Proof.
  induction a as [|c a IH]; simpl; [done |]. rewrite IH. by rewrite andb_assoc.
Qed.

Lemma split_slash_noSlash (s : string) : Forall (fun seg => noSlash seg = true) (split_slash s).
Proof.
  induction s as [|c r IH]; simpl; [by constructor |].
  destruct (Ascii.eqb_spec c slash) as [-> | Hc]; [by constructor |].
  destruct (split_slash r) as [|seg segs].
  - constructor; [| done]. simpl. destruct (Ascii.eqb_spec c slash); done.
  - inversion IH as [|? ? Hseg Hsegs]; subst. constructor; [| done].
    simpl. destruct (Ascii.eqb_spec c slash); done.
Qed.

(** A segment followed by a separator is a segment of its own. *)
Lemma split_slash_segment (x rest : string) :
  noSlash x = true -> split_slash (x +:+ String slash rest) = x :: split_slash rest.
Proof.
  induction x as [|c x IH]; intros Hx; [done |].
  simpl in Hx. apply andb_true_iff in Hx as [Hc Hx].
  simpl. destruct (Ascii.eqb c slash); [done |]. by rewrite (IH Hx).
Qed.

Lemma split_slash_single (x : string) : noSlash x = true -> split_slash x = [x].
Proof.
  induction x as [|c x IH]; intros Hx; [done |].
  simpl in Hx. apply andb_true_iff in Hx as [Hc Hx].
  simpl. destruct (Ascii.eqb c slash); [done |]. by rewrite (IH Hx).
Qed.

Lemma split_join (segs : list string) :
  segs <> [] -> Forall (fun seg => noSlash seg = true) segs ->
  split_slash (join_slash segs) = segs.
Proof.
  induction segs as [|x segs IH]; [done |]. intros _ Hall.
  inversion Hall as [|? ? Hx Hrest]; subst.
  destruct segs as [|y segs]; [by apply split_slash_single |].
  change (join_slash (x :: y :: segs)) with (x +:+ String slash (join_slash (y :: segs))).
  rewrite (split_slash_segment _ _ Hx). by rewrite IH.
Qed.

Lemma join_slash_cons (x : string) (segs : list string) :
  segs <> [] -> join_slash (x :: segs) = x +:+ String slash (join_slash segs).
Proof. by destruct segs. Qed.

Lemma join_slash_app (l1 l2 : list string) :
  l1 <> [] -> l2 <> [] ->
  join_slash (l1 ++ l2) = join_slash l1 +:+ String slash (join_slash l2).
Proof.
  induction l1 as [|x l1 IH]; [done |]. intros _ H2.
  destruct l1 as [|y l1].
  - simpl app. by rewrite join_slash_cons.
  - change ((x :: y :: l1) ++ l2) with (x :: ((y :: l1) ++ l2)).
    rewrite join_slash_cons; [| done]. rewrite IH; [| done..].
    rewrite (join_slash_cons x (y :: l1)); [| done]. by rewrite append_assoc.
Qed.

Lemma join_slash_snoc_append (l : list string) (x suffix : string) :
  join_slash (l ++ [x +:+ suffix]) = join_slash (l ++ [x]) +:+ suffix.
Proof.
  destruct l as [|y l]; [done |].
  rewrite !join_slash_app; [| done..]. simpl join_slash at 2 4.
  by rewrite append_assoc.
Qed.

(** A path splits where its parts are joined. *)
Lemma split_slash_app (a b : string) :
  split_slash (a +:+ String slash b) = split_slash a ++ split_slash b.
Proof.
  rewrite <- (join_split a) at 1. rewrite <- (join_split b) at 1.
  rewrite <- join_slash_app; [| apply split_slash_nonempty..].
  apply split_join.
  - pose proof (split_slash_nonempty a). by destruct (split_slash a).
  - apply Forall_app. split; apply split_slash_noSlash.
Qed.

Lemma last_app_singleton {X} (l : list X) (x d : X) : List.last (l ++ [x]) d = x.
Proof. apply List.last_last. Qed.

Lemma list_snoc_inv {X} (l : list X) (d : X) :
  l <> [] -> l = removelast l ++ [List.last l d].
Proof. intros H. by apply app_removelast_last. Qed.

Lemma basename_append (path suffix : string) :
  noSlash suffix = true -> basename (path +:+ suffix) = basename path +:+ suffix.
Proof.
  intros Hs. unfold basename.
  pose proof (list_snoc_inv (split_slash path) "" (split_slash_nonempty path)) as Hsplit.
  set (init := removelast (split_slash path)) in *.
  set (b := List.last (split_slash path) "") in *.
  assert (Hall : Forall (fun seg => noSlash seg = true) (init ++ [b])).
  { rewrite <- Hsplit. apply split_slash_noSlash. }
  rewrite <- (join_split path) at 1. rewrite Hsplit, <- join_slash_snoc_append.
  rewrite split_join.
  - apply last_app_singleton.
  - by destruct init.
  - apply Forall_app in Hall as [Hinit Hb]. apply Forall_app. split; [done |].
    constructor; [| done]. rewrite noSlash_append. inversion Hb; subst.
    by rewrite H1, Hs.
Qed.

Lemma basename_after_slash (a b : string) : basename (a +:+ String slash b) = basename b.
Proof.
  unfold basename. rewrite split_slash_app.
  pose proof (list_snoc_inv (split_slash b) "" (split_slash_nonempty b)) as Hb.
  rewrite Hb at 1. rewrite app_assoc. by rewrite last_app_singleton.
Qed.

Lemma normalizeStep_ordinary (allow : bool) (stack : list string) (seg : string) :
  ordinary seg -> normalizeStep allow stack seg = seg :: stack.
Proof.
  intros (H0 & H1 & H2). unfold normalizeStep.
  apply String.eqb_neq in H0, H1, H2. by rewrite H0, H1, H2.
Qed.

Lemma normalizeStep_noSlash (allow : bool) (stack : list string) (seg : string) :
  Forall (fun s => noSlash s = true) stack -> noSlash seg = true ->
  Forall (fun s => noSlash s = true) (normalizeStep allow stack seg).
Proof.
  intros Hst Hseg. unfold normalizeStep.
  destruct (String.eqb seg "" || String.eqb seg "."); [done |].
  destruct (String.eqb seg "..").
  - destruct stack as [|top below].
    + destruct allow; [by constructor | done].
    + inversion Hst; subst. destruct (String.eqb top ".."); [| done].
      destruct allow; [by constructor | done].
  - by constructor.
Qed.

Lemma normalize_fold_noSlash (allow : bool) (segs stack : list string) :
  Forall (fun s => noSlash s = true) segs -> Forall (fun s => noSlash s = true) stack ->
  Forall (fun s => noSlash s = true) (fold_left (normalizeStep allow) segs stack).
Proof.
  revert stack. induction segs as [|seg segs IH]; intros stack Hsegs Hst; [done |].
  inversion Hsegs; subst. simpl. apply IH; [done |]. by apply normalizeStep_noSlash.
Qed.

(** Normalisation keeps an ordinary last segment in last place. *)
Lemma normalizeString_last (path : string) (allow : bool) :
  ordinary (basename path) ->
  exists kept,
    normalizeString path allow = join_slash (kept ++ [basename path]) /\
    Forall (fun s => noSlash s = true) (kept ++ [basename path]).
Proof.
  intros Hord. unfold normalizeString, basename in *.
  pose proof (list_snoc_inv (split_slash path) "" (split_slash_nonempty path)) as Hsplit.
  pose proof (split_slash_noSlash path) as Hall.
  set (x := List.last (split_slash path) "") in *.
  set (init := removelast (split_slash path)) in *.
  rewrite Hsplit in Hall |- *. apply Forall_app in Hall as [Hinit Hx].
  rewrite fold_left_app. simpl. rewrite (normalizeStep_ordinary _ _ _ Hord). simpl.
  exists (rev (fold_left (normalizeStep allow) init [])). split; [done |].
  apply Forall_app. split; [| done].
  apply Forall_rev. by apply normalize_fold_noSlash.
Qed.

Lemma basename_join_snoc (l : list string) (x : string) :
  Forall (fun s => noSlash s = true) (l ++ [x]) -> basename (join_slash (l ++ [x])) = x.
Proof.
  intros Hall. unfold basename. rewrite split_join; [| by destruct l | done].
  apply last_app_singleton.
Qed.

Lemma endsWithSlash_basename (s : string) : endsWithSlash s = true -> basename s = "".
Proof.
  induction s as [|c r IH]; [done |]. intros H.
  assert (Hcases : (r = "" /\ c = slash) \/ (r <> "" /\ endsWithSlash r = true)).
  { destruct r; simpl in H; [left | right]; split; try done. by apply Ascii.eqb_eq. }
  destruct Hcases as [[-> ->] | [Hr Hend]]; [reflexivity |].
  specialize (IH Hend).
  destruct (Ascii.eqb_spec c slash) as [-> | Hc].
  - change (String slash r) with ("" +:+ String slash r).
    by rewrite basename_after_slash.
  - unfold basename in *. simpl.
    destruct (Ascii.eqb_spec c slash); [done |].
    pose proof (join_split r) as Hj.
    destruct (split_slash r) as [|seg [|seg' segs]].
    + done.
    + simpl in IH, Hj. by subst.
    + exact IH.
Qed.

Lemma basename_empty : basename "" = "".
Proof. reflexivity. Qed.

(** [path.normalize] keeps an ordinary last segment. *)
Lemma path_normalize_basename (path : string) :
  ordinary (basename path) -> basename (path_normalize path) = basename path.
Proof.
  intros Hord. destruct (normalizeString_last path (negb (startsWith path "/")) Hord)
    as (kept & Hnorm & Hall).
  pose proof (basename_join_snoc _ _ Hall) as Hb.
  unfold path_normalize.
  destruct (String.eqb_spec path "") as [-> | Hne]; [by destruct Hord |].
  destruct (endsWithSlash path) eqn:Hend.
  { apply endsWithSlash_basename in Hend. by destruct Hord. }
  rewrite Hnorm.
  destruct (String.eqb_spec (join_slash (kept ++ [basename path])) "") as [Hempty | _].
  { rewrite Hempty in Hb. destruct Hord as [H0 _]. by rewrite <- Hb in H0. }
  destruct (startsWith path "/"); [| done].
  change ("/" +:+ join_slash (kept ++ [basename path]))
    with ("" +:+ String slash (join_slash (kept ++ [basename path]))).
  by rewrite basename_after_slash.
Qed.

(** The last argument of a three-argument [path.join] gives the last
    segment of the result. *)
Lemma path_join_basename (root dir file : string) :
  dir <> "" -> ordinary (basename file) ->
  basename (path_join [root; dir; file]) = basename file.
Proof.
  intros Hdir Hord.
  assert (Hfile : file <> "") by (intros ->; by destruct Hord).
  assert (Hj : exists pre, joined [root; dir; file] = Some (pre +:+ String slash file)).
  { simpl. apply String.eqb_neq in Hdir, Hfile. rewrite Hdir, Hfile.
    destruct (String.eqb root "").
    - by exists dir.
    - exists (root +:+ String slash dir). by rewrite append_assoc. }
  destruct Hj as [pre Hj]. unfold path_join. rewrite Hj.
  rewrite path_normalize_basename; rewrite basename_after_slash; done.
Qed.

(** ** File names of a test *)

Lemma digitChar_cases (n : N) :
  In (digitChar n) ["0"; "1"; "2"; "3"; "4"; "5"; "6"; "7"; "8"; "9"]%char.
Proof.
  unfold digitChar. pose proof (N.mod_upper_bound n 10) as Hlt.
  set (m := (n mod 10)%N) in *.
  assert (Hm : (m = 0 \/ m = 1 \/ m = 2 \/ m = 3 \/ m = 4 \/ m = 5 \/ m = 6 \/ m = 7 \/
                m = 8 \/ m = 9)%N) by lia.
  simpl. repeat (destruct Hm as [-> | Hm]; [tauto |]). subst m. rewrite Hm. tauto.
Qed.

Lemma digitChar_noSlash (n : N) : Ascii.eqb (digitChar n) slash = false.
Proof.
  pose proof (digitChar_cases n) as H. simpl in H.
  repeat (destruct H as [<- | H]; [reflexivity |]). done.
Qed.

Lemma digitChar_not_e (n : N) : digitChar n <> "e"%char.
Proof.
  pose proof (digitChar_cases n) as H. simpl in H.
  repeat (destruct H as [<- | H]; [discriminate |]). done.
Qed.

Lemma pad2_noSlash (n : N) : noSlash (pad2 n) = true.
Proof. unfold pad2. simpl. by rewrite !digitChar_noSlash. Qed.

Lemma isoDate_noSlash (d : CivilDate) : noSlash (isoDate d) = true.
Proof.
  unfold isoDate, isoYear, pad4.
  destruct (year d <? 10000)%N;
    rewrite ?noSlash_append, ?pad2_noSlash; reflexivity.
Qed.

(** The date string ends with the digit of the units of the day. *)
Lemma isoDate_last_digit (d : CivilDate) :
  exists init, isoDate d = init +:+ String (digitChar (day d)) "".
Proof.
  unfold isoDate.
  exists (isoYear (year d) +:+ "-" +:+ pad2 (month d) +:+ "-" +:+
          String (digitChar (day d / 10)) "").
  rewrite !append_assoc. reflexivity.
Qed.

(** A baseline file name is no current or diff file name: before the
    extension, the one ends with a letter and the other with a digit. *)
Lemma baseline_name_differs (a b tag : string) (d : CivilDate) :
  a +:+ "-baseline.png" <> b +:+ tag +:+ isoDate d +:+ ".png".
Proof.
  destruct (isoDate_last_digit d) as [init ->]. intros H.
  apply (f_equal list_ascii_of_string) in H. rewrite !list_ascii_of_append in H.
  simpl list_ascii_of_string in H.
  rewrite <- !app_assoc in H. simpl app in H. rewrite !app_assoc in H.
  change ["-"; "b"; "a"; "s"; "e"; "l"; "i"; "n"; "e"; "."; "p"; "n"; "g"]%char
    with (["-"; "b"; "a"; "s"; "e"; "l"; "i"; "n"] ++ ["e"; "."; "p"; "n"; "g"])%char in H.
  rewrite (app_assoc (list_ascii_of_string a)) in H.
  apply app_inj_2 in H as [_ H]; [| reflexivity].
  injection H as H. by apply (digitChar_not_e (day d)).
Qed.

Lemma ordinary_long (b s : string) : (3 <= String.length s)%nat -> ordinary (b +:+ s).
Proof.
  intros Hlen.
  assert (Hl : (3 <= String.length (b +:+ s))%nat).
  { induction b as [|c b IH]; simpl; [done | lia]. }
  repeat split; intros Heq; rewrite Heq in Hl; simpl in Hl; lia.
Qed.

Section TestPaths.

Variable env : Env.

Lemma basename_baselinePath (name : string) :
  basename (baselinePath env name) = basename name +:+ "-baseline.png".
Proof.
  unfold baselinePath. rewrite path_join_basename; [| done |];
    rewrite basename_append by reflexivity; [done |].
  apply ordinary_long. simpl. lia.
Qed.

Lemma basename_currentPath (name : string) (d : CivilDate) :
  basename (currentPath env name (isoDate d)) =
    basename name +:+ "-current-" +:+ isoDate d +:+ ".png".
Proof.
  assert (Hs : noSlash ("-current-" +:+ isoDate d +:+ ".png") = true).
  { by rewrite !noSlash_append, isoDate_noSlash. }
  unfold currentPath. rewrite path_join_basename; [| done |];
    rewrite basename_append by exact Hs; [done |].
  apply ordinary_long. simpl. lia.
Qed.

Lemma basename_diffPath (name : string) (d : CivilDate) :
  basename (diffPath env name (isoDate d)) =
    basename name +:+ "-diff-" +:+ isoDate d +:+ ".png".
Proof.
  assert (Hs : noSlash ("-diff-" +:+ isoDate d +:+ ".png") = true).
  { by rewrite !noSlash_append, isoDate_noSlash. }
  unfold diffPath. rewrite path_join_basename; [| done |];
    rewrite basename_append by exact Hs; [done |].
  apply ordinary_long. simpl. lia.
Qed.

(** No baseline path is the current or the diff path of any test on any
    day. *)
Lemma baselinePath_not_current (name name' : string) (d : CivilDate) :
  baselinePath env name <> currentPath env name' (isoDate d).
Proof.
  intros H. apply (f_equal basename) in H.
  rewrite basename_baselinePath, basename_currentPath in H.
  by apply baseline_name_differs in H.
Qed.

Lemma baselinePath_not_diff (name name' : string) (d : CivilDate) :
  baselinePath env name <> diffPath env name' (isoDate d).
Proof.
  intros H. apply (f_equal basename) in H.
  rewrite basename_baselinePath, basename_diffPath in H.
  by apply baseline_name_differs in H.
Qed.

End TestPaths.

(** C5. A run of [runVisualTests] leaves every existing baseline image,
    of whatever test name, with the content it had; and a baseline path
    whose content the run changed held no file before the run and is the
    baseline path of the test the run was started for, which the run
    created. *)
Theorem runVisualTests_keeps_baseline (env : Env) (page : Page) (w : World)
    (testName : string) (timeout : Z) :
  let w' := fst (runVisualTests env page testName timeout w) in
  (forall name content,
     files w !! baselinePath env name = Some content ->
     files w' !! baselinePath env name = Some content) /\
  (forall name,
     files w' !! baselinePath env name <> files w !! baselinePath env name ->
     files w !! baselinePath env name = None /\
     baselinePath env name = baselinePath env testName).
Proof.
  intros w'.
  assert (Hframe : forall name,
            files w' !! baselinePath env name = files w !! baselinePath env name \/
            (files w !! baselinePath env name = None /\
             baselinePath env name = baselinePath env testName)).
  { intros name.
    pose proof (writes_only_runVisualTests env page testName timeout w
                  (baselinePath env name)) as Hw.
    pose proof (baselinePath_not_current env name testName (dateAt env (clock w))) as Hc.
    pose proof (baselinePath_not_diff env name testName (dateAt env (clock w))) as Hd.
    fold (dateOf env w) in Hc, Hd.
    destruct (bool_decide (is_Some (files w !! baselinePath env testName))) eqn:Hex.
    - left. apply Hw. paths.
    - destruct (decide (baselinePath env name = baselinePath env testName)) as [Heq | Hne].
      + right. split; [| done]. rewrite Heq.
        apply bool_decide_eq_false in Hex. by apply eq_None_not_Some.
      + left. apply Hw. paths. }
  split.
  - intros name content Hsome. destruct (Hframe name) as [Heq | [Hnone _]]; congruence.
  - intros name Hchanged. destruct (Hframe name) as [Heq | H]; done.
Qed.

Lemma runVisualTests_keeps_baseline_witness :
  files (fst (runVisualTests demoEnv (demoPage (Some 7)) "home" 2000 world_baseline))
    !! baselinePath demoEnv "home" = Some onePixel.
Proof.
  apply (proj1 (runVisualTests_keeps_baseline demoEnv (demoPage (Some 7)) world_baseline
                  "home" 2000) "home" onePixel).
  vm_compute. reflexivity.
Defined.

(** * Further properties *)

(** ** The race of the wait engine *)

Section Race.

Variable page : Page.

Lemma formSelector_transfer (selector q : string) (w w' : World) :
  formSelector selector w = (w, Returned q) -> formSelector selector w' = (w', Returned q).
Proof.
  intros H. pose proof (formSelector_any_world selector w w') as Hs.
  pose proof (formSelector_world selector w') as Hw.
  rewrite H in Hs. simpl in Hs.
  destruct (formSelector selector w') as [w2 r]. simpl in *. by subst.
Qed.

(** Whatever the race gives, the translated selector has been stored. *)
Lemma waitForElementState_stores (selector : string) (waitState : ElementWaitState)
    (timeoutMs : option Z) (w : World) (q : string) :
  formSelector selector w = (w, Returned q) ->
  formedSelector (fst (waitForElementState page selector waitState timeoutMs w)) = q.
Proof.
  intros Hq. rewrite (waitForElementState_valid page _ _ _ _ _ Hq).
  destruct (await_race_world page (CWaitForSelector q (selectorStateOf waitState))
              (CWaitForTimeout (chooseTimeout timeoutMs)) (set_formedSelector q w)) as [dt Hw].
  destruct (await_race page _ _ _) as [w2 [u|e|]]; simpl in *; by subst w2.
Qed.

(** What makes the wait engine throw. *)
Lemma waitForElementState_throw_causes (selector : string) (waitState : ElementWaitState)
    (timeoutMs : option Z) (w : World) (e : JsError) :
  snd (waitForElementState page selector waitState timeoutMs w) = Thrown e ->
  formSelector selector w = (w, Thrown e) \/
  exists q dt,
    formSelector selector w = (w, Returned q) /\
    (page (calls w) (CWaitForSelector q (selectorStateOf waitState)) =
       Settles dt (Rejected e) \/
     page (calls w ++ [CWaitForSelector q (selectorStateOf waitState)])
          (CWaitForTimeout (chooseTimeout timeoutMs)) = Settles dt (Rejected e)).
Proof.
  intros Hthrow.
  destruct (formSelector_cases selector w) as [[q Hq] | [e' He']].
  - right. rewrite (waitForElementState_valid page _ _ _ _ _ Hq) in Hthrow.
    unfold await_race in Hthrow. simpl in Hthrow.
    destruct (page (calls w) (CWaitForSelector q (selectorStateOf waitState)))
      as [|t1 [v1|e1]] eqn:H1;
    destruct (page (calls w ++ [CWaitForSelector q (selectorStateOf waitState)])
                   (CWaitForTimeout (chooseTimeout timeoutMs))) as [|t2 [v2|e2]] eqn:H2;
      try destruct (t1 <=? t2)%Z; simpl in Hthrow; try discriminate;
      injection Hthrow as ->; exists q; eauto.
  - left. rewrite (waitForElementState_invalid page _ waitState timeoutMs _ _ He') in Hthrow.
    injection Hthrow as ->. done.
Qed.

End Race.

(** X1. With a valid selector, when the engine reports the wait state
    reached after [t1] milliseconds and the timer has not run out before
    (it settles no earlier than [t1], or never), the wait engine returns
    after [t1] milliseconds, not after the timeout; nothing is logged and
    the translated selector is left in [formedSelector]. *)
Theorem waitForElementState_condition_first (page : Page) (w : World) (selector : string)
    (waitState : ElementWaitState) (timeoutMs : option Z) (q : string) (t1 : Z) (u : unit) :
  formSelector selector w = (w, Returned q) ->
  page (calls w) (CWaitForSelector q (selectorStateOf waitState)) = Settles t1 (Fulfilled u) ->
  (page (calls w ++ [CWaitForSelector q (selectorStateOf waitState)])
        (CWaitForTimeout (chooseTimeout timeoutMs)) = Pending \/
   exists t2 s,
     page (calls w ++ [CWaitForSelector q (selectorStateOf waitState)])
          (CWaitForTimeout (chooseTimeout timeoutMs)) = Settles t2 s /\ (t1 <= t2)%Z) ->
  let r := waitForElementState page selector waitState timeoutMs w in
  snd r = Returned tt /\ clock (fst r) = (clock w + t1)%Z /\ logs (fst r) = logs w /\
  formedSelector (fst r) = q.
Proof.
  intros Hq Hwait Htimer r. subst r.
  rewrite (waitForElementState_valid page _ _ _ _ _ Hq).
  unfold await_race. simpl. rewrite Hwait.
  destruct Htimer as [-> | (t2 & s & -> & Hle)]; [done |].
  destruct (Z.leb_spec t1 t2) as [_ | Hlt]; [done | lia].
Qed.

Lemma waitForElementState_condition_first_witness :
  let r := waitForElementState (latePage 7 2000) "#submit-btn" VISIBLE (Some 5000%Z) world0 in
  snd r = Returned tt /\ clock (fst r) = (clock world0 + 2000)%Z /\
  logs (fst r) = logs world0 /\
  formedSelector (fst r) = attributeQuery "data-testid" "submit-btn".
Proof.
  apply (waitForElementState_condition_first (latePage 7 2000) world0 "#submit-btn" VISIBLE
           (Some 5000%Z) (attributeQuery "data-testid" "submit-btn") 2000%Z tt).
  - reflexivity.
  - reflexivity.
  - right. exists 5000%Z, (Fulfilled tt). split; [reflexivity | lia].
Defined.

(** X2. A positive [timeoutMs] is the duration of the race's timer, in
    the wait engine called directly and in the wait [getElement] starts:
    when [getElement] returns, the engine has seen the selector wait, a
    timer of [t] milliseconds and one query, in this order. *)
Theorem positive_timeout_is_used (page : Page) (w : World) (selector q : string)
    (waitState : option ElementWaitState) (t : Z) :
  (0 < t)%Z ->
  formSelector selector w = (w, Returned q) ->
  calls (fst (waitForElementState page selector (orVisible waitState) (Some t) w)) =
    calls w ++ [CWaitForSelector q (selectorStateOf (orVisible waitState));
                CWaitForTimeout (Some t)] /\
  (forall w' element,
     getElement page selector waitState (Some t) w = (w', Returned element) ->
     calls w' = calls w ++ [CWaitForSelector q (selectorStateOf (orVisible waitState));
                            CWaitForTimeout (Some t); CQuery q]).
Proof.
  intros Ht Hq.
  assert (Hc : chooseTimeout (Some t) = Some t).
  { unfold chooseTimeout. destruct (Z.ltb_spec 0 t); [done | lia]. }
  split.
  - rewrite (waitForElementState_valid page _ _ _ _ _ Hq), Hc.
    destruct (await_race_world page (CWaitForSelector q (selectorStateOf (orVisible waitState)))
                (CWaitForTimeout (Some t)) (set_formedSelector q w)) as [dt Hw].
    destruct (await_race page _ _ _) as [w' [u|e|]]; simpl in *; subst w'; simpl;
      by rewrite <- app_assoc.
  - intros w' element Hget.
    pose proof (getElement_returned page _ _ _ _ _ _ _ Hq Hget) as Hcalls.
    by rewrite !Hc in Hcalls.
Qed.

Lemma positive_timeout_is_used_witness :
  calls (fst (waitForElementState (demoPage (Some 7)) "#submit-btn" (orVisible None)
                (Some 5000%Z) world0)) =
    calls world0 ++ [CWaitForSelector (attributeQuery "data-testid" "submit-btn")
                       (selectorStateOf (orVisible None));
                     CWaitForTimeout (Some 5000%Z)].
Proof.
  apply (positive_timeout_is_used (demoPage (Some 7)) world0 "#submit-btn"
           (attributeQuery "data-testid" "submit-btn") None 5000%Z).
  - lia.
  - reflexivity.
Defined.

(** X3. With a valid selector, when the engine rejects the selector wait
    with [e] after [t1] milliseconds and the timer has not run out before,
    the wait engine throws [e] to its caller after [t1] milliseconds and
    has logged one error line, which names the selector as the caller
    wrote it and the number of the wait state. *)
Theorem waitForElementState_rejection_rethrown (page : Page) (w : World) (selector : string)
    (waitState : ElementWaitState) (timeoutMs : option Z) (q : string) (t1 : Z)
    (e : JsError) :
  formSelector selector w = (w, Returned q) ->
  page (calls w) (CWaitForSelector q (selectorStateOf waitState)) = Settles t1 (Rejected e) ->
  (page (calls w ++ [CWaitForSelector q (selectorStateOf waitState)])
        (CWaitForTimeout (chooseTimeout timeoutMs)) = Pending \/
   exists t2 s,
     page (calls w ++ [CWaitForSelector q (selectorStateOf waitState)])
          (CWaitForTimeout (chooseTimeout timeoutMs)) = Settles t2 s /\ (t1 <= t2)%Z) ->
  let r := waitForElementState page selector waitState timeoutMs w in
  snd r = Thrown e /\ clock (fst r) = (clock w + t1)%Z /\
  logs (fst r) = logs w ++ [waitErrorLine selector waitState].
Proof.
  intros Hq Hwait Htimer r. subst r.
  rewrite (waitForElementState_valid page _ _ _ _ _ Hq).
  unfold await_race. simpl. rewrite Hwait.
  destruct Htimer as [-> | (t2 & s & -> & Hle)]; [done |].
  destruct (Z.leb_spec t1 t2) as [_ | Hlt]; [done | lia].
Qed.

Lemma waitForElementState_rejection_rethrown_witness :
  let r := waitForElementState (faultyPage None isSelectorWait) "#submit-btn" INVISIBLE
             (Some 5000%Z) world0 in
  snd r = Thrown pageClosed /\ clock (fst r) = (clock world0 + 3)%Z /\
  logs (fst r) = logs world0 ++ [waitErrorLine "#submit-btn" INVISIBLE].
Proof.
  apply (waitForElementState_rejection_rethrown (faultyPage None isSelectorWait) world0
           "#submit-btn" INVISIBLE (Some 5000%Z) (attributeQuery "data-testid" "submit-btn")
           3%Z pageClosed).
  - reflexivity.
  - reflexivity.
  - right. exists 5000%Z, (Fulfilled tt). split; [reflexivity | lia].
Defined.

(** ** Element access *)

Section Access.

Variable page : Page.

(** [getElement], once the wait engine has returned: the query decides. *)
Lemma getElement_after_wait (selector : string) (waitState : option ElementWaitState)
    (timeoutMs : option Z) (w w1 : World) (q : string) (u : unit) :
  formSelector selector w = (w, Returned q) ->
  waitForElementState page selector (orVisible waitState) (chooseTimeout timeoutMs) w =
    (w1, Returned u) ->
  getElement page selector waitState timeoutMs w =
  match page (calls w1) (CQuery q) with
  | Pending => (add_call (CQuery q) w1, Never)
  | Settles dt (Fulfilled element) =>
      (add_log (foundLine q) (advance dt (add_call (CQuery q) w1)), Returned element)
  | Settles dt (Rejected e) =>
      (add_log (retrieveErrorLine q) (advance dt (add_call (CQuery q) w1)), Thrown e)
  end.
Proof.
  intros Hq Hwait.
  destruct (waitForElementState_returned page _ _ _ _ _ _ _ Hq Hwait) as [Hsel _].
  unfold getElement, try_catch, bind at 1. rewrite Hwait.
  unfold bind, get_formedSelector, await, logger_info, logger_error, ret, throw.
  simpl. rewrite Hsel.
  destruct (page (calls w1) (CQuery q)) as [|dt [v|e]]; simpl; by rewrite ?Hsel.
Qed.

(** [getElement], when the wait engine throws: the error goes on. *)
Lemma getElement_wait_throws (selector : string) (waitState : option ElementWaitState)
    (timeoutMs : option Z) (w w1 : World) (e : JsError) :
  waitForElementState page selector (orVisible waitState) (chooseTimeout timeoutMs) w =
    (w1, Thrown e) ->
  getElement page selector waitState timeoutMs w =
    (add_log (retrieveErrorLine (formedSelector w1)) w1, Thrown e).
Proof.
  intros Hwait. unfold getElement, try_catch, bind at 1. rewrite Hwait. reflexivity.
Qed.

End Access.

(** X4. On an invalid selector [getElement] throws the invalid-selector
    error, whose message names the offending selector, before anything is
    asked of the engine: no call is made and no time passes, no file is
    touched, and [formedSelector] is not reset but keeps the translated
    selector an earlier call left there. *)
Theorem getElement_invalid_selector (page : Page) (w : World) (selector : string)
    (waitState : option ElementWaitState) (timeoutMs : option Z) :
  startsWith selector "#" = false ->
  xpathPattern_test selector = false ->
  let r := getElement page selector waitState timeoutMs w in
  snd r = Thrown (Error ("Invalid selector format: " +:+ selector)) /\
  calls (fst r) = calls w /\
  clock (fst r) = clock w /\
  files (fst r) = files w /\
  formedSelector (fst r) = formedSelector w.
Proof.
  intros Hm Hx r. subst r.
  assert (Hf : formSelector selector w =
               (w, Thrown (Error ("Invalid selector format: " +:+ selector)))).
  { unfold formSelector. by rewrite Hm, Hx. }
  rewrite (getElement_wait_throws page _ _ _ _ _ _
             (waitForElementState_invalid page _ _ _ _ _ Hf)).
  done.
Qed.

Lemma getElement_invalid_selector_witness :
  let r := getElement (demoPage (Some 7)) "submit-btn" None None world_stale in
  snd r = Thrown (Error "Invalid selector format: submit-btn") /\
  calls (fst r) = calls world_stale /\
  clock (fst r) = clock world_stale /\
  files (fst r) = files world_stale /\
  formedSelector (fst r) = formedSelector world_stale.
Proof.
  apply (getElement_invalid_selector (demoPage (Some 7)) world_stale "submit-btn" None None);
    reflexivity.
Defined.

(** X5. Once the wait engine has returned, [getElement] returns what the
    engine's single query answers, a handle or [null]; it does not throw
    when nothing matches, and it logs the same "has been found" line in
    both cases. *)
Theorem getElement_returns_query_answer (page : Page) (w w1 : World) (selector q : string)
    (waitState : option ElementWaitState) (timeoutMs : option Z) (u : unit) (dt : Z)
    (element : option Handle) :
  formSelector selector w = (w, Returned q) ->
  waitForElementState page selector (orVisible waitState) (chooseTimeout timeoutMs) w =
    (w1, Returned u) ->
  page (calls w1) (CQuery q) = Settles dt (Fulfilled element) ->
  let r := getElement page selector waitState timeoutMs w in
  snd r = Returned element /\
  calls (fst r) = calls w1 ++ [CQuery q] /\
  logs (fst r) = logs w1 ++ [foundLine q].
Proof.
  intros Hq Hwait Hquery r. subst r.
  rewrite (getElement_after_wait page _ _ _ _ _ _ _ Hq Hwait), Hquery. done.
Qed.

Lemma getElement_returns_query_answer_witness :
  let r := getElement (demoPage None) "#missing" None (Some 1000%Z) world0 in
  snd r = Returned None /\
  calls (fst r) =
    calls (fst (waitForElementState (demoPage None) "#missing" (orVisible None)
                  (chooseTimeout (Some 1000%Z)) world0)) ++
    [CQuery (attributeQuery "data-testid" "missing")] /\
  logs (fst r) =
    logs (fst (waitForElementState (demoPage None) "#missing" (orVisible None)
                 (chooseTimeout (Some 1000%Z)) world0)) ++
    [foundLine (attributeQuery "data-testid" "missing")].
Proof.
  apply (getElement_returns_query_answer (demoPage None) world0
           (fst (waitForElementState (demoPage None) "#missing" (orVisible None)
                   (chooseTimeout (Some 1000%Z)) world0))
           "#missing" (attributeQuery "data-testid" "missing") None (Some 1000%Z) tt 1%Z None).
  - reflexivity.
  - vm_compute. reflexivity.
  - reflexivity.
Defined.

(** X6. [getElement] throws only what the selector translation threw or
    what the engine rejected the selector wait, the timer or the query
    with; an element that is not there is no error. *)
Theorem getElement_throw_causes (page : Page) (w : World) (selector : string)
    (waitState : option ElementWaitState) (timeoutMs : option Z) (e : JsError) :
  snd (getElement page selector waitState timeoutMs w) = Thrown e ->
  formSelector selector w = (w, Thrown e) \/
  exists q tr c dt,
    formSelector selector w = (w, Returned q) /\
    page tr c = Settles dt (Rejected e) /\
    (c = CWaitForSelector q (selectorStateOf (orVisible waitState)) \/
     c = CWaitForTimeout (chooseTimeout (chooseTimeout timeoutMs)) \/
     c = CQuery q).
Proof.
  intros Hthrow.
  destruct (waitForElementState page selector (orVisible waitState)
              (chooseTimeout timeoutMs) w) as [w1 [u|e1|]] eqn:Hwait.
  - destruct (formSelector_cases selector w) as [[q Hq] | [e' He']].
    + right. rewrite (getElement_after_wait page _ _ _ _ _ _ _ Hq Hwait) in Hthrow.
      destruct (page (calls w1) (CQuery q)) as [|dt [v|e2]] eqn:Hquery; simpl in Hthrow;
        try discriminate.
      injection Hthrow as ->. exists q, (calls w1), (CQuery q), dt. eauto.
    + rewrite (waitForElementState_invalid page _ _ _ _ _ He') in Hwait. discriminate.
  - rewrite (getElement_wait_throws page _ _ _ _ _ _ Hwait) in Hthrow.
    injection Hthrow as ->.
    destruct (waitForElementState_throw_causes page selector (orVisible waitState)
                (chooseTimeout timeoutMs) w e) as [Hinv | (q & dt & Hq & [Hc | Hc])].
    + by rewrite Hwait.
    + by left.
    + right. exists q, (calls w), (CWaitForSelector q (selectorStateOf (orVisible waitState))), dt.
      eauto.
    + right. eexists q, _, (CWaitForTimeout (chooseTimeout (chooseTimeout timeoutMs))), dt.
      eauto.
  - unfold getElement, try_catch, bind at 1 in Hthrow. rewrite Hwait in Hthrow. discriminate.
Qed.

Lemma getElement_throw_causes_witness :
  formSelector "#gone" world0 = (world0, Thrown pageClosed) \/
  exists q tr c dt,
    formSelector "#gone" world0 = (world0, Returned q) /\
    faultyPage None isSelectorWait tr c = Settles dt (Rejected pageClosed) /\
    (c = CWaitForSelector q (selectorStateOf (orVisible (Some PRESENT))) \/
     c = CWaitForTimeout (chooseTimeout (chooseTimeout (Some 1000%Z))) \/
     c = CQuery q).
Proof.
  apply (getElement_throw_causes (faultyPage None isSelectorWait) world0 "#gone"
           (Some PRESENT) (Some 1000%Z) pageClosed).
  vm_compute. reflexivity.
Defined.

(** ** Action wrappers on an element that was found *)

(** X7. When the element is found and the engine rejects the action on it
    with [e], the wrappers [click], [clearText], [keyPress] and [getText]
    throw [e] to the caller, while [selectCheckbox], [unselectCheckbox] and
    [selectDropdownOption] return normally. *)
Theorem engine_fault_policy (page : Page) (w w1 : World) (selector : string)
    (waitState : option ElementWaitState) (timeoutMs : option Z) (h : Handle)
    (e : JsError) :
  getElement page selector waitState timeoutMs w = (w1, Returned (Some h)) ->
  (forall modifiers button dt,
     page (calls w1) (CClick h modifiers button) = Settles dt (Rejected e) ->
     snd (click page selector modifiers button waitState timeoutMs w) = Thrown e) /\
  (forall dt,
     page (calls w1) (CFill h "") = Settles dt (Rejected e) ->
     snd (clearText page selector waitState timeoutMs w) = Thrown e) /\
  (forall key dt,
     page (calls w1) (CPress h key) = Settles dt (Rejected e) ->
     snd (keyPress page selector key waitState timeoutMs w) = Thrown e) /\
  (forall dt,
     page (calls w1) (CTextContent h) = Settles dt (Rejected e) ->
     snd (getText page selector waitState timeoutMs w) = Thrown e) /\
  (forall dt,
     page (calls w1) (CCheck h) = Settles dt (Rejected e) ->
     snd (selectCheckbox page selector waitState timeoutMs w) = Returned tt) /\
  (forall dt,
     page (calls w1) (CUncheck h) = Settles dt (Rejected e) ->
     snd (unselectCheckbox page selector waitState timeoutMs w) = Returned tt) /\
  (forall opt dt,
     page (calls w1)
          (CSelectOption h ("option[value=" +:+ dquote +:+ opt +:+ dquote +:+
                            "], option[label=" +:+ dquote +:+ opt +:+ dquote +:+ "]")) =
       Settles dt (Rejected e) ->
     snd (selectDropdownOption page selector opt waitState timeoutMs w) = Returned tt).
Proof.
  intros Hget.
  repeat split; intros;
    unfold click, clearText, keyPress, getText, selectCheckbox, unselectCheckbox,
      selectDropdownOption, try_catch, bind at 1;
    rewrite Hget; unfold bind, await;
    match goal with H : page _ _ = _ |- _ => rewrite H end; reflexivity.
Qed.

Lemma engine_fault_policy_witness :
  snd (click (faultyPage (Some 7) isClick) "#save" [] "left" None (Some 1000%Z) world0) =
    Thrown pageClosed /\
  snd (selectCheckbox (faultyPage (Some 7) isCheck) "#agree" None (Some 1000%Z) world0) =
    Returned tt.
Proof.
  split.
  - destruct (engine_fault_policy (faultyPage (Some 7) isClick) world0
                (fst (getElement (faultyPage (Some 7) isClick) "#save" None (Some 1000%Z)
                        world0))
                "#save" None (Some 1000%Z) 7 pageClosed) as (Hclick & _).
    + vm_compute. reflexivity.
    + apply (Hclick [] "left" 3%Z). reflexivity.
  - destruct (engine_fault_policy (faultyPage (Some 7) isCheck) world0
                (fst (getElement (faultyPage (Some 7) isCheck) "#agree" None (Some 1000%Z)
                        world0))
                "#agree" None (Some 1000%Z) 7 pageClosed) as (_ & _ & _ & _ & Hcheck & _).
    + vm_compute. reflexivity.
    + apply (Hcheck 3%Z). reflexivity.
Defined.

(** ** State checks *)

(** X8. Once [getElement] has returned, [isElementPresent] returns [true]
    for a handle and [false] for [null]: the absent element is a result,
    with an error line in the log, and not an exception. *)
Theorem isElementPresent_reflects_query (page : Page) (w w1 : World) (selector : string)
    (timeoutMs : option Z) (element : option Handle) :
  getElement page selector (Some PRESENT) timeoutMs w = (w1, Returned element) ->
  let r := isElementPresent page selector timeoutMs w in
  snd r = Returned (match element with Some _ => true | None => false end) /\
  calls (fst r) = calls w1 /\
  logs (fst r) =
    logs w1 ++
    [match element with
     | Some _ => (Info, "Element with selector '" +:+ selector +:+ "' is present:")
     | None => (LError, "Element with selector '" +:+ selector +:+ "' was not present.")
     end].
Proof.
  intros Hget r.
  assert (Heq : r =
    (add_log match element with
             | Some _ => (Info, "Element with selector '" +:+ selector +:+ "' is present:")
             | None => (LError, "Element with selector '" +:+ selector +:+ "' was not present.")
             end w1,
     Returned (match element with Some _ => true | None => false end))).
  { subst r. unfold isElementPresent, try_catch, bind at 1. rewrite Hget.
    by destruct element. }
  rewrite Heq. done.
Qed.

Lemma isElementPresent_reflects_query_witness :
  snd (isElementPresent (demoPage None) "#missing" (Some 1000%Z) world0) = Returned false.
Proof.
  apply (isElementPresent_reflects_query (demoPage None) world0
           (fst (getElement (demoPage None) "#missing" (Some PRESENT) (Some 1000%Z) world0))
           "#missing" (Some 1000%Z) None).
  vm_compute. reflexivity.
Defined.

(** X9. [isElementVisible] and [isElementEnabled] throw the "was not
    present" error when the element is absent, and otherwise return the
    boolean the engine answers for the handle that was found. *)
Theorem visible_enabled_checks (page : Page) (w w1 : World) (selector : string)
    (timeoutMs : option Z) (element : option Handle) :
  getElement page selector (Some VISIBLE) timeoutMs w = (w1, Returned element) ->
  match element with
  | None =>
      snd (isElementVisible page selector timeoutMs w) =
        Thrown (Error ("Element with selector '" +:+ selector +:+ "' was not present.")) /\
      snd (isElementEnabled page selector timeoutMs w) =
        Thrown (Error ("Element with selector '" +:+ selector +:+ "' was not present."))
  | Some h =>
      (forall dt b, page (calls w1) (CIsVisible h) = Settles dt (Fulfilled b) ->
                    snd (isElementVisible page selector timeoutMs w) = Returned b) /\
      (forall dt b, page (calls w1) (CIsEnabled h) = Settles dt (Fulfilled b) ->
                    snd (isElementEnabled page selector timeoutMs w) = Returned b)
  end.
Proof.
  intros Hget. destruct element as [h|].
  - split; intros dt b Hb;
      unfold isElementVisible, isElementEnabled, try_catch, bind at 1;
      rewrite Hget; unfold bind, await; rewrite Hb; by destruct b.
  - split; unfold isElementVisible, isElementEnabled, try_catch, bind at 1;
      by rewrite Hget.
Qed.

Lemma visible_enabled_checks_witness :
  snd (isElementVisible (demoPage None) "#missing" (Some 1000%Z) world0) =
    Thrown (Error "Element with selector '#missing' was not present.") /\
  snd (isElementEnabled (valuePage (Some 7) JNull false) "#save" (Some 1000%Z) world0) =
    Returned false.
Proof.
  split.
  - apply (visible_enabled_checks (demoPage None) world0
             (fst (getElement (demoPage None) "#missing" (Some VISIBLE) (Some 1000%Z) world0))
             "#missing" (Some 1000%Z) None).
    vm_compute. reflexivity.
  - pose proof (visible_enabled_checks (valuePage (Some 7) JNull false) world0
                  (fst (getElement (valuePage (Some 7) JNull false) "#save" (Some VISIBLE)
                          (Some 1000%Z) world0))
                  "#save" (Some 1000%Z) (Some 7)) as H.
    destruct H as [_ Henabled]; [vm_compute; reflexivity |].
    apply (Henabled 1%Z false). reflexivity.
Defined.

(** X10. When the element is found, [isElementChecked] returns [true]
    exactly when the property read gives the boolean [true]; any other
    value, [undefined] or a string among them, gives [false]. When the
    element is absent it throws the "was not present" error. *)
Theorem isElementChecked_strict (page : Page) (w w1 : World) (selector : string)
    (timeoutMs : option Z) (element : option Handle) :
  getElement page selector (Some VISIBLE) timeoutMs w = (w1, Returned element) ->
  match element with
  | None =>
      snd (isElementChecked page selector timeoutMs w) =
        Thrown (Error ("Element with selector '" +:+ selector +:+ "' was not present."))
  | Some _ =>
      forall dt v, page (calls w1) (CEvalChecked selector) = Settles dt (Fulfilled v) ->
        exists b, snd (isElementChecked page selector timeoutMs w) = Returned b /\
                  (b = true <-> v = JBool true)
  end.
Proof.
  intros Hget. destruct element as [h|].
  - intros dt v Hv. unfold isElementChecked, try_catch, bind at 1. rewrite Hget.
    unfold bind, await. rewrite Hv.
    destruct v as [| |[|]| |]; simpl; eexists; (split; [reflexivity |]); split; done.
  - unfold isElementChecked, try_catch, bind at 1. by rewrite Hget.
Qed.

Lemma isElementChecked_strict_witness :
  exists b,
    snd (isElementChecked (valuePage (Some 7) (JStr "true") true) "//input" (Some 1000%Z)
           world0) = Returned b /\
    (b = true <-> JStr "true" = JBool true).
Proof.
  pose proof (isElementChecked_strict (valuePage (Some 7) (JStr "true") true) world0
                (fst (getElement (valuePage (Some 7) (JStr "true") true) "//input"
                        (Some VISIBLE) (Some 1000%Z) world0))
                "//input" (Some 1000%Z) (Some 7)) as H.
  apply (H ltac:(vm_compute; reflexivity) 1%Z (JStr "true")). reflexivity.
Defined.

(** X11. When the element is found, [getPropertyValue] throws its own
    error if the property's value is [null] and returns every other value
    as it is, [undefined] included. *)
Theorem getPropertyValue_null_only (page : Page) (w w1 : World) (selector name : string)
    (waitState : option ElementWaitState) (timeoutMs : option Z) (h property : Handle)
    (dt1 dt2 : Z) (v : JsVal) :
  getElement page selector waitState timeoutMs w = (w1, Returned (Some h)) ->
  page (calls w1) (CGetProperty h name) = Settles dt1 (Fulfilled property) ->
  page (calls w1 ++ [CGetProperty h name]) (CJsonValue property) = Settles dt2 (Fulfilled v) ->
  snd (getPropertyValue page selector name waitState timeoutMs w) =
    match v with
    | JNull => Thrown (Error ("Unable to fetch the attriubte for the element with selector '" +:+
                              selector +:+ "'."))
    | _ => Returned v
    end.
Proof.
  intros Hget Hprop Hval.
  unfold getPropertyValue, try_catch, bind at 1. rewrite Hget.
  unfold bind, await. rewrite Hprop. simpl. rewrite Hval. by destruct v.
Qed.

Lemma getPropertyValue_null_only_witness :
  snd (getPropertyValue (valuePage (Some 7) JUndefined true) "#name" "value" None
         (Some 1000%Z) world0) = Returned JUndefined.
Proof.
  apply (getPropertyValue_null_only (valuePage (Some 7) JUndefined true) world0
           (fst (getElement (valuePage (Some 7) JUndefined true) "#name" None (Some 1000%Z)
                   world0))
           "#name" "value" None (Some 1000%Z) 7 7 1%Z 1%Z JUndefined).
  - vm_compute. reflexivity.
  - reflexivity.
  - reflexivity.
Defined.

(** ** Typing text *)

Section Typing.

Variable page : Page.

Lemma getElement_returned_selector (selector : string) (waitState : option ElementWaitState)
    (timeoutMs : option Z) (w w' : World) (q : string) (element : option Handle) :
  formSelector selector w = (w, Returned q) ->
  getElement page selector waitState timeoutMs w = (w', Returned element) ->
  formedSelector w' = q.
Proof.
  intros Hq Hget.
  destruct (waitForElementState page selector (orVisible waitState)
              (chooseTimeout timeoutMs) w) as [w1 [u|e1|]] eqn:Hwait.
  - destruct (waitForElementState_returned page _ _ _ _ _ _ _ Hq Hwait) as [Hsel _].
    rewrite (getElement_after_wait page _ _ _ _ _ _ _ Hq Hwait) in Hget.
    destruct (page (calls w1) (CQuery q)) as [|dt [v|e2]]; simpl in Hget; try discriminate.
    by injection Hget as <- _.
  - rewrite (getElement_wait_throws page _ _ _ _ _ _ Hwait) in Hget. discriminate.
  - unfold getElement, try_catch, bind at 1 in Hget. rewrite Hwait in Hget. discriminate.
Qed.

(** When [clearText] returns, it found a handle and filled it with the
    empty string, after the three calls of [getElement]. *)
Lemma clearText_returned (selector : string) (waitState : option ElementWaitState)
    (timeoutMs : option Z) (w w' : World) (q : string) (u : unit) :
  formSelector selector w = (w, Returned q) ->
  clearText page selector waitState timeoutMs w = (w', Returned u) ->
  formedSelector w' = q /\
  exists h,
    calls w' = calls w ++ [CWaitForSelector q (selectorStateOf (orVisible waitState));
                           CWaitForTimeout (chooseTimeout (chooseTimeout timeoutMs));
                           CQuery q; CFill h ""].
Proof.
  intros Hq Hclear. unfold clearText, try_catch, bind at 1 in Hclear.
  destruct (getElement page selector waitState timeoutMs w) as [w1 [[h|]|e|]] eqn:Hget;
    try discriminate.
  pose proof (getElement_returned page _ _ _ _ _ _ _ Hq Hget) as Hcalls.
  pose proof (getElement_returned_selector _ _ _ _ _ _ _ Hq Hget) as Hsel.
  unfold bind, await, logger_info in Hclear.
  destruct (page (calls w1) (CFill h "")) as [|dt [v|e]]; simpl in Hclear; try discriminate.
  injection Hclear as <- _. simpl. split; [done |].
  exists h. rewrite Hcalls, <- app_assoc. done.
Qed.

End Typing.

(** X12. When the first wait and [clearText] both return, [setText] has
    made seven calls on the engine, in this order: a selector wait and a
    timer, a second selector wait and timer and one query (from
    [clearText]), the fill with the empty string on the handle found, and
    the typing of [text] with [delay] on the translated selector. *)
Theorem setText_sequence (page : Page) (w w1 w2 : World) (selector text q : string)
    (delay : Z) (timeoutMs : option Z) (u1 u2 : unit) :
  formSelector selector w = (w, Returned q) ->
  waitForElementState page selector VISIBLE timeoutMs w = (w1, Returned u1) ->
  clearText page selector (Some VISIBLE) timeoutMs w1 = (w2, Returned u2) ->
  exists h,
    calls (fst (setText page selector text delay timeoutMs w)) =
      calls w ++ [CWaitForSelector q (Some StateVisible);
                  CWaitForTimeout (chooseTimeout timeoutMs);
                  CWaitForSelector q (Some StateVisible);
                  CWaitForTimeout (chooseTimeout (chooseTimeout timeoutMs));
                  CQuery q;
                  CFill h "";
                  CType q text delay].
Proof.
  intros Hq Hwait Hclear.
  destruct (waitForElementState_returned page _ _ _ _ _ _ _ Hq Hwait) as [_ Hc1].
  destruct (clearText_returned page _ _ _ _ _ _ _ (formSelector_transfer _ _ _ w1 Hq) Hclear)
    as [Hsel [h Hc2]].
  exists h. unfold setText, try_catch, bind at 1. rewrite Hwait.
  unfold bind at 1. rewrite Hclear.
  unfold bind, get_formedSelector, await, logger_info, logger_error. simpl. rewrite Hsel.
  destruct (page (calls w2) (CType q text delay)) as [|dt [v|e]]; simpl;
    rewrite Hc2, Hc1, <- !app_assoc; reflexivity.
Qed.

Lemma setText_sequence_witness :
  exists h,
    calls (fst (setText (demoPage (Some 7)) "#name" "Ada" 0 (Some 1000%Z) world0)) =
      calls world0 ++ [CWaitForSelector (attributeQuery "data-testid" "name") (Some StateVisible);
                       CWaitForTimeout (chooseTimeout (Some 1000%Z));
                       CWaitForSelector (attributeQuery "data-testid" "name") (Some StateVisible);
                       CWaitForTimeout (chooseTimeout (chooseTimeout (Some 1000%Z)));
                       CQuery (attributeQuery "data-testid" "name");
                       CFill h "";
                       CType (attributeQuery "data-testid" "name") "Ada" 0].
Proof.
  apply (setText_sequence (demoPage (Some 7)) world0
           (fst (waitForElementState (demoPage (Some 7)) "#name" VISIBLE (Some 1000%Z) world0))
           (fst (clearText (demoPage (Some 7)) "#name" (Some VISIBLE) (Some 1000%Z)
                   (fst (waitForElementState (demoPage (Some 7)) "#name" VISIBLE
                           (Some 1000%Z) world0))))
           "#name" "Ada" (attributeQuery "data-testid" "name") 0 (Some 1000%Z) tt tt).
  - reflexivity.
  - vm_compute. reflexivity.
  - vm_compute. reflexivity.
Defined.

(** ** Screenshots and baselines *)

(** Steps of a computation that is known to return. *)
Lemma bind_returned {A B} (m : M A) (k : A -> M B) (w w' : World) (a : A) :
  m w = (w', Returned a) -> bind m k w = k a w'.
Proof. intros H. unfold bind. by rewrite H. Qed.

Lemma try_catch_returned {A} (m : M A) (h : JsError -> M A) (w w' : World) (a : A) :
  m w = (w', Returned a) -> try_catch m h w = (w', Returned a).
Proof. intros H. unfold try_catch. by rewrite H. Qed.

Lemma try_catch_thrown {A} (m : M A) (h : JsError -> M A) (w w' : World) (e : JsError) :
  m w = (w', Thrown e) -> try_catch m h w = h e w'.
Proof. intros H. unfold try_catch. by rewrite H. Qed.

Lemma copyFileSync_succeeds (env : Env) (src dest : string) (w : World)
    (content : list byte) :
  files w !! src = Some content -> writable env dest = true ->
  fs_copyFileSync env src dest w = (set_files (<[dest := content]> (files w)) w, Returned tt).
Proof.
  intros Hsrc Hdest. unfold fs_copyFileSync, bind, fs_readFileSync, fs_writeFileSync.
  by rewrite Hsrc, Hdest.
Qed.

Section Capture.

Variables (env : Env) (page : Page).

Lemma captureScreenshot_fulfilled (filename : string) (w : World) (dt : Z)
    (buffer : list byte) :
  page (calls w) (CScreenshot (screenshotPath env filename)) = Settles dt (Fulfilled buffer) ->
  captureScreenshot env page filename w =
    (add_log (Info, "Successfully captured screenshot: " +:+ filename)
       (set_files (<[screenshotPath env filename := buffer]> (files w))
          (advance dt (add_call (CScreenshot (screenshotPath env filename)) w))),
     Returned tt).
Proof.
  intros H. unfold captureScreenshot, page_screenshot, try_catch, bind, await, logger_info.
  cbv zeta. unfold screenshotPath in *. rewrite H. reflexivity.
Qed.

Lemma captureScreenshot_rejected (filename : string) (w : World) (dt : Z) (e : JsError) :
  page (calls w) (CScreenshot (screenshotPath env filename)) = Settles dt (Rejected e) ->
  captureScreenshot env page filename w =
    (add_log (LError, "Error while capturing screenshot: " +:+ String_of_error e)
       (advance dt (add_call (CScreenshot (screenshotPath env filename)) w)),
     Thrown e).
Proof.
  intros H. unfold captureScreenshot, page_screenshot, try_catch, bind, await, logger_error,
    throw.
  cbv zeta. unfold screenshotPath in *. rewrite H. reflexivity.
Qed.

(** A timer and a screenshot that both succeed. *)
Lemma wait_then_capture (timeout : Z) (filename : string) (w : World) (dt1 dt2 : Z)
    (u : unit) (buffer : list byte) :
  page (calls w) (CWaitForTimeout (Some timeout)) = Settles dt1 (Fulfilled u) ->
  page (calls w ++ [CWaitForTimeout (Some timeout)])
       (CScreenshot (screenshotPath env filename)) = Settles dt2 (Fulfilled buffer) ->
  await page (CWaitForTimeout (Some timeout)) w =
    (advance dt1 (add_call (CWaitForTimeout (Some timeout)) w), Returned u) /\
  captureScreenshot env page filename
    (advance dt1 (add_call (CWaitForTimeout (Some timeout)) w)) =
    (afterCapture env timeout filename dt1 dt2 buffer w, Returned tt).
Proof.
  intros Ht Hs. split.
  - unfold await. by rewrite Ht.
  - by rewrite (captureScreenshot_fulfilled filename _ dt2 buffer).
Qed.

(** What [createBaselineImage] leaves when timer, screenshot and copy
    succeed. *)
Lemma createBaselineImage_succeeds (testName : string) (timeout : Z) (w : World)
    (dt1 dt2 : Z) (u : unit) (buffer : list byte) :
  page (calls w) (CWaitForTimeout (Some timeout)) = Settles dt1 (Fulfilled u) ->
  page (calls w ++ [CWaitForTimeout (Some timeout)])
       (CScreenshot (currentPath env testName (dateOf env w))) =
    Settles dt2 (Fulfilled buffer) ->
  writable env (baselinePath env testName) = true ->
  createBaselineImage env page testName timeout w =
    (set_files (<[baselinePath env testName := buffer]>
                  (<[currentPath env testName (dateOf env w) := buffer]> (files w)))
       (add_log (Info, "No baseline image found for " +:+ testName +:+
                       ". Saving the current screenshot as baseline.")
          (afterCapture env timeout (currentName testName (dateOf env w)) dt1 dt2 buffer w)),
     Returned tt).
Proof.
  intros Ht Hs Hw.
  destruct (wait_then_capture timeout (currentName testName (dateOf env w)) w dt1 dt2 u
              buffer Ht Hs) as [Hwait Hcap].
  unfold createBaselineImage. apply try_catch_returned.
  rewrite (bind_returned _ _ w w (dateOf env w)) by reflexivity. cbv beta zeta.
  rewrite (bind_returned _ _ _ _ _ Hwait).
  rewrite (bind_returned _ _ _ _ _ Hcap).
  rewrite (bind_returned _ _ _ _ tt
             (eq_refl : logger_info _ (afterCapture env timeout _ dt1 dt2 buffer w) = _)).
  apply copyFileSync_succeeds; [| exact Hw].
  apply lookup_insert_eq.
Qed.

End Capture.

(** X13. [captureScreenshot] stores what the engine captured under the
    name it is given in the directory of current images, and touches no
    other file; when the engine rejects the screenshot, it throws the
    engine's error on and leaves the file system as it was. *)
Theorem captureScreenshot_stores (env : Env) (page : Page) (w : World) (filename : string) :
  let path := path_join [reportPath (settings env); currentDir (settings env); filename] in
  let r := captureScreenshot env page filename w in
  (forall dt buffer,
     page (calls w) (CScreenshot path) = Settles dt (Fulfilled buffer) ->
     snd r = Returned tt /\
     fs_readFileSync path (fst r) = (fst r, Returned buffer) /\
     (forall p, p <> path -> files (fst r) !! p = files w !! p)) /\
  (forall dt e,
     page (calls w) (CScreenshot path) = Settles dt (Rejected e) ->
     snd r = Thrown e /\ files (fst r) = files w).
Proof.
  intros path r. subst path r. fold (screenshotPath env filename). split.
  - intros dt buffer H. rewrite (captureScreenshot_fulfilled env page _ _ _ _ H).
    split; [done |]. split.
    + unfold fs_readFileSync. simpl. by rewrite lookup_insert_eq.
    + intros p Hp. simpl. by apply lookup_insert_ne.
  - intros dt e H. by rewrite (captureScreenshot_rejected env page _ _ _ _ H).
Qed.

Lemma captureScreenshot_stores_witness :
  snd (captureScreenshot demoEnv (demoPage (Some 7)) "home-current-2024-05-17.png" world0) =
    Returned tt /\
  snd (captureScreenshot demoEnv (faultyPage (Some 7) isScreenshot)
         "home-current-2024-05-17.png" world0) = Thrown pageClosed.
Proof.
  split.
  - apply (proj1 (captureScreenshot_stores demoEnv (demoPage (Some 7)) world0
                    "home-current-2024-05-17.png") 5%Z onePixel).
    reflexivity.
  - apply (proj2 (captureScreenshot_stores demoEnv (faultyPage (Some 7) isScreenshot) world0
                    "home-current-2024-05-17.png") 3%Z pageClosed).
    reflexivity.
Defined.

(** X14. [createBaselineImage] makes no check of its own: when the timer,
    the screenshot and the copy succeed, the baseline of the test holds
    the picture just taken, whatever was stored there before, and so does
    the current image of the day. And it never throws. *)
Theorem createBaselineImage_overwrites (env : Env) (page : Page) (w : World)
    (testName : string) (timeout : Z) (dt1 dt2 : Z) (u : unit) (buffer : list byte) :
  page (calls w) (CWaitForTimeout (Some timeout)) = Settles dt1 (Fulfilled u) ->
  page (calls w ++ [CWaitForTimeout (Some timeout)])
       (CScreenshot (currentPath env testName (dateOf env w))) =
    Settles dt2 (Fulfilled buffer) ->
  writable env (baselinePath env testName) = true ->
  let r := createBaselineImage env page testName timeout w in
  snd r = Returned tt /\
  files (fst r) !! baselinePath env testName = Some buffer /\
  files (fst r) !! currentPath env testName (dateOf env w) = Some buffer /\
  (forall w0 name t e, snd (createBaselineImage env page name t w0) <> Thrown e).
Proof.
  intros Ht Hs Hw r. subst r.
  rewrite (createBaselineImage_succeeds env page _ _ _ _ _ _ _ Ht Hs Hw). simpl.
  split; [done |]. split; [apply lookup_insert_eq |]. split.
  - rewrite lookup_insert_ne; [apply lookup_insert_eq |].
    apply baselinePath_not_current.
  - intros. unfold createBaselineImage, try_catch, logger_error.
    match goal with
    | |- context [match ?m ?w with _ => _ end] => destruct (m w) as [? [?|?|]]
    end; simpl; done.
Qed.

Lemma createBaselineImage_overwrites_witness :
  files world_old_baseline !! baselinePath demoEnv "home" = Some twoPixels /\
  files (fst (createBaselineImage demoEnv (demoPage (Some 7)) "home" 2000 world_old_baseline))
    !! baselinePath demoEnv "home" = Some onePixel.
Proof.
  split; [vm_compute; reflexivity |].
  apply (createBaselineImage_overwrites demoEnv (demoPage (Some 7)) world_old_baseline "home"
           2000 2000%Z 5%Z tt onePixel); reflexivity.
Defined.

(** ** The pipeline *)

Section Pipeline.

Variables (env : Env) (page : Page).

Lemma existsSync_false (path : string) (w : World) :
  files w !! path = None -> fs_existsSync path w = (w, Returned false).
Proof.
  intros H. unfold fs_existsSync. by rewrite H.
Qed.

Lemma existsSync_true (path : string) (w : World) (content : list byte) :
  files w !! path = Some content -> fs_existsSync path w = (w, Returned true).
Proof.
  intros H. unfold fs_existsSync. by rewrite H.
Qed.

(** Without a baseline, a run is [createBaselineImage] with the timeout
    2000, whatever timeout the run was given. *)
Lemma runVisualTests_without_baseline (testName : string) (timeout : Z) (w w' : World) :
  files w !! baselinePath env testName = None ->
  createBaselineImage env page testName 2000 w = (w', Returned tt) ->
  runVisualTests env page testName timeout w = (w', Returned tt).
Proof.
  intros Hnone Hcreate. unfold runVisualTests. apply try_catch_returned.
  rewrite (bind_returned _ _ w w (dateOf env w)) by reflexivity. cbv beta zeta.
  rewrite (bind_returned _ _ _ _ _ (existsSync_false _ _ Hnone)).
  exact Hcreate.
Qed.

(** The comparison always comes back with a boolean. *)
Lemma compareScreenshots_returns (image1 image2 diffImage : string) (w : World) :
  exists w' b, compareScreenshots env image1 image2 diffImage w = (w', Returned b).
Proof.
  rewrite compareScreenshots_steps. unfold comparison_failed.
  destruct (files w !! image1) as [buf1|]; [| by eexists _, _].
  destruct (png_read env buf1) as [e1|img1]; [by eexists _, _ |].
  destruct (files w !! image2) as [buf2|]; [| by eexists _, _].
  destruct (png_read env buf2) as [e2|img2]; [by eexists _, _ |].
  destruct (pixelmatch env _ _ _ _ _ _) as [e|r]; [by eexists _, _ |].
  destruct (writable env diffImage); by eexists _, _.
Qed.

(** With a baseline, after a timer and a screenshot that succeed, a run
    is the comparison followed by the report of its result. *)
Lemma runVisualTests_with_baseline (testName : string) (timeout : Z) (w w3 : World)
    (content : list byte) (dt1 dt2 : Z) (u : unit) (buffer : list byte) (b : bool) :
  files w !! baselinePath env testName = Some content ->
  page (calls w) (CWaitForTimeout (Some timeout)) = Settles dt1 (Fulfilled u) ->
  page (calls w ++ [CWaitForTimeout (Some timeout)])
       (CScreenshot (currentPath env testName (dateOf env w))) =
    Settles dt2 (Fulfilled buffer) ->
  compareScreenshots env (baselinePath env testName) (currentPath env testName (dateOf env w))
    (diffPath env testName (dateOf env w))
    (afterCapture env timeout (currentName testName (dateOf env w)) dt1 dt2 buffer w) =
    (w3, Returned b) ->
  runVisualTests env page testName timeout w =
    (if b then w3 else add_log (differenceLine env testName (dateOf env w)) w3, Returned tt).
Proof.
  intros Hsome Ht Hs Hcmp.
  destruct (wait_then_capture env page timeout (currentName testName (dateOf env w)) w dt1 dt2
              u buffer Ht Hs) as [Hwait Hcap].
  unfold runVisualTests. apply try_catch_returned.
  rewrite (bind_returned _ _ w w (dateOf env w)) by reflexivity. cbv beta zeta.
  rewrite (bind_returned _ _ _ _ _ (existsSync_true _ _ _ Hsome)).
  change (negb true) with false. cbv iota.
  rewrite (bind_returned _ _ _ _ _ Hwait).
  rewrite (bind_returned _ _ _ _ _ Hcap).
  rewrite (bind_returned _ _ _ _ _ Hcmp).
  by destruct b.
Qed.

End Pipeline.

(** X15. On a first run, when no baseline exists and the timer, the
    screenshot and the copy succeed, [runVisualTests] returns with the
    picture just taken stored as the baseline and as the current image;
    the diff image is not touched; and the wait before the screenshot is
    2000 ms whatever timeout the run was given. *)
Theorem runVisualTests_first_run (env : Env) (page : Page) (w : World) (testName : string)
    (timeout : Z) (dt1 dt2 : Z) (u : unit) (buffer : list byte) :
  files w !! baselinePath env testName = None ->
  page (calls w) (CWaitForTimeout (Some 2000%Z)) = Settles dt1 (Fulfilled u) ->
  page (calls w ++ [CWaitForTimeout (Some 2000%Z)])
       (CScreenshot (currentPath env testName (dateOf env w))) =
    Settles dt2 (Fulfilled buffer) ->
  writable env (baselinePath env testName) = true ->
  let r := runVisualTests env page testName timeout w in
  snd r = Returned tt /\
  files (fst r) !! baselinePath env testName = Some buffer /\
  files (fst r) !! currentPath env testName (dateOf env w) = Some buffer /\
  files (fst r) !! diffPath env testName (dateOf env w) =
    files w !! diffPath env testName (dateOf env w) /\
  calls (fst r) = calls w ++ [CWaitForTimeout (Some 2000%Z);
                              CScreenshot (currentPath env testName (dateOf env w))].
Proof.
  intros Hnone Ht Hs Hw r. subst r.
  rewrite (runVisualTests_without_baseline env page _ _ _ _ Hnone
             (createBaselineImage_succeeds env page _ _ _ _ _ _ _ Ht Hs Hw)).
  simpl. split; [done |]. split; [apply lookup_insert_eq |]. split; [| split].
  - rewrite lookup_insert_ne; [apply lookup_insert_eq |]. apply baselinePath_not_current.
  - rewrite !lookup_insert_ne; [done | |].
    + intros H. apply (f_equal basename) in H. unfold dateOf in H.
      rewrite basename_currentPath, basename_diffPath in H.
      apply append_inv_head in H. discriminate.
    + apply baselinePath_not_diff.
  - by rewrite <- app_assoc.
Qed.

Lemma runVisualTests_first_run_witness :
  let r := runVisualTests demoEnv (demoPage (Some 7)) "home" 10 world0 in
  snd r = Returned tt /\
  files (fst r) !! baselinePath demoEnv "home" = Some onePixel /\
  files (fst r) !! currentPath demoEnv "home" (dateOf demoEnv world0) = Some onePixel /\
  files (fst r) !! diffPath demoEnv "home" (dateOf demoEnv world0) =
    files world0 !! diffPath demoEnv "home" (dateOf demoEnv world0) /\
  calls (fst r) = calls world0 ++ [CWaitForTimeout (Some 2000%Z);
                                   CScreenshot (currentPath demoEnv "home"
                                                  (dateOf demoEnv world0))].
Proof.
  apply (runVisualTests_first_run demoEnv (demoPage (Some 7)) world0 "home" 10 2000%Z 5%Z tt
           onePixel); reflexivity.
Defined.

(** X16. With a baseline, when the timer and the screenshot succeed, a
    run returns normally whatever the comparison gives; it logs the
    "visual difference" line exactly when the comparison gives [false],
    which includes every comparison that failed inside, and logs nothing
    more when it gives [true]. *)
Theorem runVisualTests_reports (env : Env) (page : Page) (w : World) (testName : string)
    (timeout : Z) (content : list byte) (dt1 dt2 : Z) (u : unit) (buffer : list byte) :
  files w !! baselinePath env testName = Some content ->
  page (calls w) (CWaitForTimeout (Some timeout)) = Settles dt1 (Fulfilled u) ->
  page (calls w ++ [CWaitForTimeout (Some timeout)])
       (CScreenshot (currentPath env testName (dateOf env w))) =
    Settles dt2 (Fulfilled buffer) ->
  exists w3 b,
    compareScreenshots env (baselinePath env testName)
      (currentPath env testName (dateOf env w)) (diffPath env testName (dateOf env w))
      (afterCapture env timeout (currentName testName (dateOf env w)) dt1 dt2 buffer w) =
      (w3, Returned b) /\
    snd (runVisualTests env page testName timeout w) = Returned tt /\
    logs (fst (runVisualTests env page testName timeout w)) =
      logs w3 ++ (if b then [] else [differenceLine env testName (dateOf env w)]).
Proof.
  intros Hsome Ht Hs.
  destruct (compareScreenshots_returns env (baselinePath env testName)
              (currentPath env testName (dateOf env w)) (diffPath env testName (dateOf env w))
              (afterCapture env timeout (currentName testName (dateOf env w)) dt1 dt2 buffer w))
    as (w3 & b & Hcmp).
  exists w3, b. split; [exact Hcmp |].
  rewrite (runVisualTests_with_baseline env page _ _ _ _ _ _ _ _ _ _ Hsome Ht Hs Hcmp).
  destruct b; simpl; [by rewrite app_nil_r | done].
Qed.

Lemma runVisualTests_reports_witness :
  exists w3 b,
    compareScreenshots demoEnv (baselinePath demoEnv "home")
      (currentPath demoEnv "home" (dateOf demoEnv world_old_baseline))
      (diffPath demoEnv "home" (dateOf demoEnv world_old_baseline))
      (afterCapture demoEnv 2000 (currentName "home" (dateOf demoEnv world_old_baseline))
         2000 5 onePixel world_old_baseline) = (w3, Returned b) /\
    snd (runVisualTests demoEnv (demoPage (Some 7)) "home" 2000 world_old_baseline) =
      Returned tt /\
    logs (fst (runVisualTests demoEnv (demoPage (Some 7)) "home" 2000 world_old_baseline)) =
      logs w3 ++ (if b then []
                  else [differenceLine demoEnv "home" (dateOf demoEnv world_old_baseline)]).
Proof.
  apply (runVisualTests_reports demoEnv (demoPage (Some 7)) world_old_baseline "home" 2000
           twoPixels 2000%Z 5%Z tt onePixel).
  - vm_compute. reflexivity.
  - reflexivity.
  - reflexivity.
Defined.

(** ** Dates and file names *)

Lemma digitChar_inj (a b : N) : digitChar a = digitChar b -> (a mod 10 = b mod 10)%N.
Proof.
  unfold digitChar. intros H.
  pose proof (N.mod_upper_bound a 10) as Ha. pose proof (N.mod_upper_bound b 10) as Hb.
  apply (f_equal N_of_ascii) in H. rewrite !N_ascii_embedding in H; lia.
Qed.

Lemma pad2_mod (a b : N) : pad2 a = pad2 b -> (a mod 100 = b mod 100)%N.
Proof.
  unfold pad2. intros [= H1 H2]. apply digitChar_inj in H1, H2.
  change 100%N with (10 * 10)%N. rewrite !N.Div0.mod_mul_r. by rewrite H1, H2.
Qed.

Lemma pad4_mod (a b : N) : pad4 a = pad4 b -> (a mod 10000 = b mod 10000)%N.
Proof.
  intros H.
  assert (H1 : pad2 (a / 100) = pad2 (b / 100)).
  { unfold pad4, pad2 in *. simpl in H. injection H as H1 H2 _ _. by rewrite H1, H2. }
  assert (H2 : pad2 a = pad2 b).
  { unfold pad4, pad2 in *. simpl in H. injection H as _ _ H3 H4. by rewrite H3, H4. }
  apply pad2_mod in H1, H2.
  change 10000%N with (100 * 100)%N. rewrite !N.Div0.mod_mul_r. by rewrite H1, H2.
Qed.

Lemma digitChar_not_plus (n : N) : digitChar n <> "+"%char.
Proof.
  pose proof (digitChar_cases n) as H. simpl in H.
  repeat (destruct H as [<- | H]; [discriminate |]). done.
Qed.

Lemma isoYear_inj (y1 y2 : N) :
  (y1 < 1000000)%N -> (y2 < 1000000)%N -> isoYear y1 = isoYear y2 -> y1 = y2.
Proof.
  intros B1 B2. unfold isoYear.
  destruct (N.ltb_spec y1 10000) as [L1 | L1], (N.ltb_spec y2 10000) as [L2 | L2]; intros H.
  - apply pad4_mod in H. by rewrite !N.mod_small in H.
  - exfalso. unfold pad4, pad2 in H. simpl in H. injection H as H _.
    by apply digitChar_not_plus in H.
  - exfalso. unfold pad4, pad2 in H. simpl in H. injection H as H _.
    symmetry in H. by apply digitChar_not_plus in H.
  - assert (H1 : pad2 (y1 / 10000) = pad2 (y2 / 10000)).
    { unfold pad4, pad2 in *. simpl in H. injection H as H1 H2 _. by rewrite H1, H2. }
    assert (H2 : pad4 y1 = pad4 y2).
    { unfold pad4, pad2 in *. simpl in H. injection H as _ _ H3 H4 H5 H6.
      simpl. by rewrite H3, H4, H5, H6. }
    apply pad2_mod in H1. apply pad4_mod in H2.
    rewrite <- (N.mod_small y1 1000000), <- (N.mod_small y2 1000000) by done.
    change 1000000%N with (10000 * 100)%N. rewrite !N.Div0.mod_mul_r. by rewrite H1, H2.
Qed.

(** Two calendar dates with the same date string are the same date. *)
Lemma isoDate_inj (d1 d2 : CivilDate) :
  calendarDate d1 -> calendarDate d2 -> isoDate d1 = isoDate d2 -> d1 = d2.
Proof.
  destruct d1 as [y1 m1 a1], d2 as [y2 m2 a2].
  intros (Hy1 & Hm1 & Ha1) (Hy2 & Hm2 & Ha2). simpl in *.
  unfold isoDate. simpl year. simpl month. simpl day. intros H.
  assert (Hparts : isoYear y1 = isoYear y2 /\ pad2 m1 = pad2 m2 /\ pad2 a1 = pad2 a2).
  { unfold isoYear in *.
    destruct (N.ltb_spec y1 10000) as [L1 | L1], (N.ltb_spec y2 10000) as [L2 | L2];
      unfold pad4, pad2 in *; simpl in H; injection H as H; intros;
      try (exfalso; eapply digitChar_not_plus; (eassumption || (symmetry; eassumption)));
      simpl; repeat split; congruence. }
  destruct Hparts as (Ey & Em & Ea).
  apply isoYear_inj in Ey; [| lia..].
  apply pad2_mod in Em, Ea. rewrite !N.mod_small in Em, Ea by lia. by subst.
Qed.

(** X17. For one test name and one day, the baseline, the current image
    and the diff image are three different files: the screenshot does not
    replace the baseline, and the diff replaces neither picture the
    comparison reads. *)
Theorem run_paths_distinct (env : Env) (testName : string) (d : CivilDate) :
  baselinePath env testName <> currentPath env testName (isoDate d) /\
  baselinePath env testName <> diffPath env testName (isoDate d) /\
  currentPath env testName (isoDate d) <> diffPath env testName (isoDate d).
Proof.
  split; [apply baselinePath_not_current |]. split; [apply baselinePath_not_diff |].
  intros H. apply (f_equal basename) in H.
  rewrite basename_currentPath, basename_diffPath in H.
  apply append_inv_head in H. discriminate.
Qed.

(** X18. The current image and the diff image of a test carry the day in
    their names: on two different calendar days a test writes to two
    different current images and two different diff images. *)
Theorem images_differ_by_day (env : Env) (testName : string) (d1 d2 : CivilDate) :
  calendarDate d1 -> calendarDate d2 -> d1 <> d2 ->
  currentPath env testName (isoDate d1) <> currentPath env testName (isoDate d2) /\
  diffPath env testName (isoDate d1) <> diffPath env testName (isoDate d2).
Proof.
  intros H1 H2 Hne. split; intros H; apply (f_equal basename) in H;
    rewrite ?basename_currentPath, ?basename_diffPath in H;
    apply append_inv_head in H; apply append_inv_head in H;
    apply append_inv_tail in H; by apply isoDate_inj in H.
Qed.

Lemma images_differ_by_day_witness :
  currentPath demoEnv "home" (isoDate (MkDate 2024 5 17)) <>
    currentPath demoEnv "home" (isoDate (MkDate 2024 5 18)) /\
  diffPath demoEnv "home" (isoDate (MkDate 2024 5 17)) <>
    diffPath demoEnv "home" (isoDate (MkDate 2024 5 18)).
Proof.
  apply (images_differ_by_day demoEnv "home" (MkDate 2024 5 17) (MkDate 2024 5 18)).
  - unfold calendarDate. simpl. lia.
  - unfold calendarDate. simpl. lia.
  - discriminate.
Defined.

(** X19. The baseline is the picture of the first run for good: after a
    first run that created the baseline from the picture [buffer], a
    second run, on whatever page, with whatever timeout and on whatever
    day, leaves the baseline holding [buffer]. *)
Theorem second_run_keeps_first_picture (env : Env) (page page2 : Page) (w : World)
    (testName : string) (timeout timeout2 : Z) (dt1 dt2 : Z) (u : unit)
    (buffer : list byte) :
  files w !! baselinePath env testName = None ->
  page (calls w) (CWaitForTimeout (Some 2000%Z)) = Settles dt1 (Fulfilled u) ->
  page (calls w ++ [CWaitForTimeout (Some 2000%Z)])
       (CScreenshot (currentPath env testName (dateOf env w))) =
    Settles dt2 (Fulfilled buffer) ->
  writable env (baselinePath env testName) = true ->
  let w1 := fst (runVisualTests env page testName timeout w) in
  let w2 := fst (runVisualTests env page2 testName timeout2 w1) in
  files w1 !! baselinePath env testName = Some buffer /\
  files w2 !! baselinePath env testName = Some buffer.
Proof.
  intros Hnone Ht Hs Hw w1 w2.
  assert (H1 : files w1 !! baselinePath env testName = Some buffer).
  { subst w1.
    rewrite (runVisualTests_without_baseline env page _ _ _ _ Hnone
               (createBaselineImage_succeeds env page _ _ _ _ _ _ _ Ht Hs Hw)).
    simpl. apply lookup_insert_eq. }
  split; [exact H1 |]. subst w2. rewrite <- H1.
  apply (writes_only_runVisualTests env page2 testName timeout2 w1).
  rewrite bool_decide_eq_true_2 by (rewrite H1; by eexists).
  pose proof (baselinePath_not_current env testName testName (dateAt env (clock w1))).
  pose proof (baselinePath_not_diff env testName testName (dateAt env (clock w1))).
  unfold dateOf. paths.
Qed.

Lemma second_run_keeps_first_picture_witness :
  let w1 := fst (runVisualTests demoEnv (demoPage (Some 7)) "home" 2000 world0) in
  let w2 := fst (runVisualTests demoEnv (faultyPage None isScreenshot) "home" 50 w1) in
  files w1 !! baselinePath demoEnv "home" = Some onePixel /\
  files w2 !! baselinePath demoEnv "home" = Some onePixel.
Proof.
  apply (second_run_keeps_first_picture demoEnv (demoPage (Some 7))
           (faultyPage None isScreenshot) world0 "home" 2000 50 2000%Z 5%Z tt onePixel);
    reflexivity.
Defined.

(** X20. When both images can be read and decoded, the differ returns a
    count and the diff can be written, [compareScreenshots] returns
    whether the count is zero and stores the encoded diff image, which has
    the width and height of the first image; the tolerance handed to the
    differ is 0.1; no other file changes. *)
Theorem compareScreenshots_success (env : Env) (w : World) (image1 image2 diffImage : string)
    (buf1 buf2 : list byte) (img1 img2 : Image) (count : Z) (out : list byte) :
  files w !! image1 = Some buf1 -> png_read env buf1 = inr img1 ->
  files w !! image2 = Some buf2 -> png_read env buf2 = inr img2 ->
  pixelmatch env (data img1) (data img2) (repeat x00 (Z.to_nat (4 * width img1 * height img1)))
             (width img1) (height img1) (1 # 10)%Q = inr (count, out) ->
  writable env diffImage = true ->
  let r := compareScreenshots env image1 image2 diffImage w in
  snd r = Returned (count =? 0)%Z /\
  files (fst r) !! diffImage = Some (png_write env (MkImage (width img1) (height img1) out)) /\
  (forall p, p <> diffImage -> files (fst r) !! p = files w !! p) /\
  logs (fst r) = logs w.
Proof.
  intros H1 Hd1 H2 Hd2 Hp Hw r. subst r.
  rewrite compareScreenshots_steps, H1, Hd1, H2, Hd2. unfold newPNG. simpl data.
  rewrite Hp, Hw. simpl. split; [done |]. split; [apply lookup_insert_eq |].
  split; [| done]. intros p Hne. by apply lookup_insert_ne.
Qed.

Lemma compareScreenshots_success_witness :
  let r := compareScreenshots demoEnv "/img/a.png" "/img/a.png" "/img/d.png" world_images in
  snd r = Returned (0 =? 0)%Z /\
  files (fst r) !! "/img/d.png" =
    Some (png_write demoEnv (MkImage 1 1 [x00; x00; x00; x00])) /\
  (forall p, p <> "/img/d.png" -> files (fst r) !! p = files world_images !! p) /\
  logs (fst r) = logs world_images.
Proof.
  apply (compareScreenshots_success demoEnv world_images "/img/a.png" "/img/a.png" "/img/d.png"
           onePixel onePixel (MkImage 1 1 [xff; xff; xff; xff]) (MkImage 1 1 [xff; xff; xff; xff])
           0%Z [x00; x00; x00; x00]).
  - vm_compute. reflexivity.
  - reflexivity.
  - vm_compute. reflexivity.
  - reflexivity.
  - reflexivity.
  - reflexivity.
Defined.
